(** * TaskMaster: the task store of [taskmaster.py]

    A shallow embedding of the task list kept by class [TaskMaster]
    (src/taskmaster.py): the list of task dictionaries, the sort state,
    the filter state, the rows shown in the tree view and the message
    boxes shown to the user, together with the operations that change
    them.

    Conventions.
    - A Python [str] is the list of its code points ([pystr]); [str "abc"]
      is the literal.
    - A task dictionary [{"text", "due", "priority", "completed"}] is the
      record [Task]; the application builds no other dictionaries
      ([submit], line 310).  Every slot of [self.tasks] holds an object of
      its own, so the identity of a task is its position in the list.
    - Widgets are state: the tree view is the list of its rows, message
      boxes and destroyed windows are appended to a log.  A value read
      back from a row comes as ttk gives it: an [int] when the text
      reads as one.
    - Library functions ([list.sort], [str.strip], [json.dump],
      [json.load]) are modelled by functions with the behaviour CPython
      documents for them; [str.lower] and [int] are parameters. *)

From Stdlib Require Import String Ascii List NArith ZArith Bool Lia.
From Stdlib Require Import Permutation Sorted.
Import ListNotations.

Local Open Scope N_scope.

Local Set Warnings "-register-all".

(* ===================================================================== *)
(** * Python strings *)
(* ===================================================================== *)

(** A [str] object: its code points, each below [0x110000]. *)
Definition pystr : Type := list N.

(** The literal written between quotes in the source (ASCII only). *)
Definition str (s : string) : pystr :=
  List.map N_of_ascii (list_ascii_of_string s).

Module PyStr.

(** The empty string. *)
Definition empty : pystr := [].

(** [a == b] *)
Fixpoint eqb (a b : pystr) : bool :=
  match a, b with
  | [], [] => true
  | x :: a', y :: b' => (x =? y) && eqb a' b'
  | _, _ => false
  end.

(** Three-way comparison of two strings, code point by code point: the
    order behind [<] on [str]. *)
Fixpoint compare (a b : pystr) : comparison :=
  match a, b with
  | [], [] => Eq
  | [], _ :: _ => Lt
  | _ :: _, [] => Gt
  | x :: a', y :: b' =>
      match x ?= y with
      | Eq => compare a' b'
      | c => c
      end
  end.

(** [a < b] *)
Definition ltb (a b : pystr) : bool :=
  match compare a b with Lt => true | _ => false end.

(** [a <= b] *)
Definition leb (a b : pystr) : bool := negb (ltb b a).

(** [s.startswith(p)] *)
Fixpoint startswith (s p : pystr) : bool :=
  match p, s with
  | [], _ => true
  | x :: p', y :: s' => (x =? y) && startswith s' p'
  | _ :: _, [] => false
  end.

(** [needle in hay] *)
Fixpoint contains (hay needle : pystr) : bool :=
  startswith hay needle ||
  match hay with
  | [] => false
  | _ :: hay' => contains hay' needle
  end.

(** [Py_UNICODE_ISSPACE]: the code points [str.strip()] removes. *)
Definition isspace (c : N) : bool :=
  ((9 <=? c) && (c <=? 13)) || ((28 <=? c) && (c <=? 32)) ||
  (c =? 133) || (c =? 160) || (c =? 5760) ||
  ((8192 <=? c) && (c <=? 8202)) ||
  (c =? 8232) || (c =? 8233) || (c =? 8239) || (c =? 8287) || (c =? 12288).

(** [s.lstrip()] *)
Fixpoint lstrip (s : pystr) : pystr :=
  match s with
  | [] => []
  | c :: s' => if isspace c then lstrip s' else s
  end.

(** [s.rstrip()] *)
Definition rstrip (s : pystr) : pystr := rev (lstrip (rev s)).

(** [s.strip()] *)
Definition strip (s : pystr) : pystr := rstrip (lstrip s).

(** Truth value of a string: [bool(s)]. *)
Definition truthy (s : pystr) : bool :=
  match s with [] => false | _ :: _ => true end.

End PyStr.

(* ===================================================================== *)
(** * Python lists: [list.sort] *)
(* ===================================================================== *)

Module PyList.
Section Sort.
Context {A K : Type}.
Variable key : A -> K.
Variable lt : K -> K -> bool.

(** Put [x], which stood before every element of [l], into the sorted
    [l]: it passes the elements that are smaller and stops at the first
    one that is not, so it stays before the elements equal to it. *)
Fixpoint insert (x : A) (l : list A) : list A :=
  match l with
  | [] => [x]
  | y :: l' => if lt (key y) (key x) then y :: insert x l' else x :: y :: l'
  end.

(** A stable sort with [<] on the keys only, as [list.sort] is. *)
Fixpoint stable_sort (l : list A) : list A :=
  match l with
  | [] => []
  | x :: l' => insert x (stable_sort l')
  end.

(** [l.sort(key=key, reverse=reverse)]: with [reverse] the list is
    reversed, sorted and reversed again, which keeps equal elements in
    their first order. *)
Definition sort (reverse : bool) (l : list A) : list A :=
  if reverse then rev (stable_sort (rev l)) else stable_sort l.

(** [a] may stand before [b] in the sorted list: [b] is not smaller. *)
Definition le (a b : A) : Prop := lt (key b) (key a) = false.
End Sort.
End PyList.

(* ===================================================================== *)
(** * The [json] module *)
(* ===================================================================== *)

(** [json.dumps] and [json.loads] with their default settings
    ([ensure_ascii=True], separators [", "] and [": "], [strict=True]),
    as CPython's encoder and scanner behave. *)
Module Json.

(** A decoded document.  A number keeps its token: Python turns it into
    an [int] or a [float], and no task field holds either. *)
Inductive value : Type :=
| Null
| Bool (b : bool)
| Number (token : pystr)
| String (s : pystr)
| Array (l : list value)
| Object (d : list (pystr * value)).

Inductive result (A : Type) : Type :=
| Ok (a : A)
| DecodeError
| OutOfFuel.
Arguments Ok {A} a.
Arguments DecodeError {A}.
Arguments OutOfFuel {A}.

(** ** Encoding a string: [encode_basestring_ascii] *)

(** One digit of the format [{0:04x}]. *)
Definition hex_digit (n : N) : N :=
  if n <? 10 then 48 + n else 87 + n.

(** ['\\u{0:04x}'.format(n)] for [n < 0x10000]. *)
Definition u_escape (n : N) : pystr :=
  [92; 117; hex_digit (n / 4096 mod 16); hex_digit (n / 256 mod 16);
   hex_digit (n / 16 mod 16); hex_digit (n mod 16)].

(** The replacement of one code point: [ESCAPE_DCT] first, the
    characters from space to tilde as they are, [\uXXXX] for the rest,
    a surrogate pair above [0xFFFF]. *)
Definition escape_char (c : N) : pystr :=
  if c =? 34 then [92; 34]
  else if c =? 92 then [92; 92]
  else if c =? 10 then [92; 110]
  else if c =? 13 then [92; 114]
  else if c =? 9 then [92; 116]
  else if c =? 12 then [92; 102]
  else if c =? 8 then [92; 98]
  else if (32 <=? c) && (c <=? 126) then [c]
  else if c <? 65536 then u_escape c
  else
    let n := c - 65536 in
    let s1 := N.lor 55296 (N.land (N.shiftr n 10) 1023) in
    let s2 := N.lor 56320 (N.land n 1023) in
    u_escape s1 ++ u_escape s2.

Fixpoint escape (s : pystr) : pystr :=
  match s with
  | [] => []
  | c :: s' => escape_char c ++ escape s'
  end.

Definition encode_basestring_ascii (s : pystr) : pystr :=
  34 :: escape s ++ [34].

(** ** Decoding *)

(** [" \t\n\r"] *)
Definition is_ws (c : N) : bool :=
  (c =? 32) || (c =? 9) || (c =? 10) || (c =? 13).

Fixpoint skip_ws (s : pystr) : pystr :=
  match s with
  | [] => []
  | c :: s' => if is_ws c then skip_ws s' else s
  end.

Definition hex_val (c : N) : option N :=
  if (48 <=? c) && (c <=? 57) then Some (c - 48)
  else if (97 <=? c) && (c <=? 102) then Some (c - 87)
  else if (65 <=? c) && (c <=? 70) then Some (c - 55)
  else None.

Definition hex4 (a b c d : N) : option N :=
  match hex_val a, hex_val b, hex_val c, hex_val d with
  | Some x, Some y, Some z, Some w => Some (((x * 16 + y) * 16 + z) * 16 + w)
  | _, _, _, _ => None
  end.

(** The [BACKSLASH] table. *)
Definition unescape (e : N) : option N :=
  if e =? 34 then Some 34
  else if e =? 92 then Some 92
  else if e =? 47 then Some 47
  else if e =? 98 then Some 8
  else if e =? 102 then Some 12
  else if e =? 110 then Some 10
  else if e =? 114 then Some 13
  else if e =? 116 then Some 9
  else None.

Definition is_high_surrogate (u : N) : bool := (55296 <=? u) && (u <=? 56319).
Definition is_low_surrogate (u : N) : bool := (56320 <=? u) && (u <=? 57343).

Definition join_surrogates (u u2 : N) : N :=
  65536 + N.lor (N.shiftl (u - 55296) 10) (u2 - 56320).

Definition push (c : N) (r : option (pystr * pystr)) : option (pystr * pystr) :=
  match r with
  | Some (chars, rest) => Some (c :: chars, rest)
  | None => None
  end.

(** [scanstring]: the text after an opening quote, up to the closing
    one; gives the decoded string and the text after the closing quote.
    [None] is the [JSONDecodeError]: no closing quote, a control
    character, a wrong escape. *)
Fixpoint scanstring (s : pystr) : option (pystr * pystr) :=
  match s with
  | [] => None
  | c :: s1 =>
      if c =? 34 then Some ([], s1)
      else if c =? 92 then
        match s1 with
        | [] => None
        | e :: s2 =>
            if e =? 117 then
              match s2 with
              | a :: b :: c' :: d :: s3 =>
                  match hex4 a b c' d with
                  | None => None
                  | Some u =>
                      match s3 with
                      | bs :: uu :: a2 :: b2 :: c2 :: d2 :: s4 =>
                          if is_high_surrogate u && (bs =? 92) && (uu =? 117) then
                            match hex4 a2 b2 c2 d2 with
                            | None => None
                            | Some u2 =>
                                if is_low_surrogate u2
                                then push (join_surrogates u u2) (scanstring s4)
                                else push u (scanstring s3)
                            end
                          else push u (scanstring s3)
                      | _ => push u (scanstring s3)
                      end
                  end
              | _ => None
              end
            else
              match unescape e with
              | Some ch => push ch (scanstring s2)
              | None => None
              end
        end
      else if c <? 32 then None
      else push c (scanstring s1)
  end.

Definition is_digit (c : N) : bool := (48 <=? c) && (c <=? 57).

(** The digits at the head of [s] and what follows them. *)
Fixpoint digits (s : pystr) : pystr * pystr :=
  match s with
  | [] => ([], [])
  | c :: s' =>
      if is_digit c then let (ds, r) := digits s' in (c :: ds, r)
      else ([], s)
  end.

(** The integer part: [0], or a digit from 1 to 9 and more digits. *)
Definition scan_int (s : pystr) : option (pystr * pystr) :=
  match s with
  | [] => None
  | c :: s' =>
      if c =? 48 then Some ([c], s')
      else if is_digit c then let (ds, r) := digits s' in Some (c :: ds, r)
      else None
  end.

(** The optional fraction: a point and one digit or more. *)
Definition scan_frac (s : pystr) : pystr * pystr :=
  match s with
  | c :: s' =>
      if c =? 46 then
        match digits s' with
        | ([], _) => ([], s)
        | (ds, r) => (c :: ds, r)
        end
      else ([], s)
  | [] => ([], s)
  end.

(** The optional exponent: [e] or [E], an optional sign, one digit or
    more. *)
Definition scan_exp (s : pystr) : pystr * pystr :=
  match s with
  | e :: s' =>
      if (e =? 101) || (e =? 69) then
        match s' with
        | sg :: s'' =>
            if (sg =? 45) || (sg =? 43) then
              match digits s'' with
              | ([], _) => ([], s)
              | (ds, r) => (e :: sg :: ds, r)
              end
            else
              match digits s' with
              | ([], _) => ([], s)
              | (ds, r) => (e :: ds, r)
              end
        | [] => ([], s)
        end
      else ([], s)
  | [] => ([], s)
  end.

(** [NUMBER_RE.match]: an optional minus, the integer part, the
    optional fraction and the optional exponent. *)
Definition scan_number (s : pystr) : option (pystr * pystr) :=
  let (sign, s0) :=
    match s with
    | c :: s' => if c =? 45 then ([c], s') else ([], s)
    | [] => ([], s)
    end in
  match scan_int s0 with
  | None => None
  | Some (i, s1) =>
      let (f, s2) := scan_frac s1 in
      let (e, s3) := scan_exp s2 in
      Some (sign ++ i ++ f ++ e, s3)
  end.

(** [string[idx:idx + len(w)] == w], and the text after it. *)
Fixpoint word (w s : pystr) : option pystr :=
  match w with
  | [] => Some s
  | x :: w' =>
      match s with
      | y :: s' => if x =? y then word w' s' else None
      | [] => None
      end
  end.

(** The constants of [_scan_once], tried in its order around the
    numbers. *)
Definition scan_constant (s : pystr) : option (value * pystr) :=
  match word [110; 117; 108; 108] s with
  | Some r => Some (Null, r)
  | None =>
  match word [116; 114; 117; 101] s with
  | Some r => Some (Bool true, r)
  | None =>
  match word [102; 97; 108; 115; 101] s with
  | Some r => Some (Bool false, r)
  | None =>
  match scan_number s with
  | Some (tok, r) => Some (Number tok, r)
  | None =>
  match word [78; 97; 78] s with
  | Some r => Some (Number [78; 97; 78], r)
  | None =>
  match word [73; 110; 102; 105; 110; 105; 116; 121] s with
  | Some r => Some (Number [73; 110; 102; 105; 110; 105; 116; 121], r)
  | None =>
  match word [45; 73; 110; 102; 105; 110; 105; 116; 121] s with
  | Some r => Some (Number [45; 73; 110; 102; 105; 110; 105; 116; 121], r)
  | None => None
  end end end end end end end.

(** [d[k] = v] on a dictionary: a key already there keeps its place. *)
Fixpoint dict_set (k : pystr) (v : value) (d : list (pystr * value))
  : list (pystr * value) :=
  match d with
  | [] => [(k, v)]
  | (k', v') :: d' =>
      if PyStr.eqb k' k then (k', v) :: d' else (k', v') :: dict_set k v d'
  end.

(** [dict(pairs)] *)
Definition dict_of_pairs (pairs : list (pystr * value)) : list (pystr * value) :=
  fold_left (fun d kv => dict_set (fst kv) (snd kv) d) pairs [].

(** [d.get(k)] *)
Fixpoint dict_lookup (k : pystr) (d : list (pystr * value)) : option value :=
  match d with
  | [] => None
  | (k', v) :: d' => if PyStr.eqb k' k then Some v else dict_lookup k d'
  end.

(** [_scan_once], [JSONArray] and [JSONObject].  [scan_once] reads one
    value at the head of the text; [array_loop] reads the elements of an
    array from its first one; [object_loop] reads the pairs of an object
    from the opening quote of its first key.  The fuel bounds the calls
    in a chain; twice the length of the text and one, as [loads] gives,
    is never used up. *)
Fixpoint scan_once (fuel : nat) (s : pystr) {struct fuel}
  : result (value * pystr) :=
  match fuel with
  | O => OutOfFuel
  | S f =>
      match s with
      | [] => DecodeError
      | c :: s1 =>
          if c =? 34 then
            match scanstring s1 with
            | Some (chars, r) => Ok (String chars, r)
            | None => DecodeError
            end
          else if c =? 123 then
            match skip_ws s1 with
            | c2 :: s2 =>
                if c2 =? 125 then Ok (Object [], s2)
                else
                  match object_loop f (c2 :: s2) with
                  | Ok (pairs, r) => Ok (Object (dict_of_pairs pairs), r)
                  | DecodeError => DecodeError
                  | OutOfFuel => OutOfFuel
                  end
            | [] => DecodeError
            end
          else if c =? 91 then
            match skip_ws s1 with
            | c2 :: s2 =>
                if c2 =? 93 then Ok (Array [], s2)
                else
                  match array_loop f (c2 :: s2) with
                  | Ok (l, r) => Ok (Array l, r)
                  | DecodeError => DecodeError
                  | OutOfFuel => OutOfFuel
                  end
            | [] => DecodeError
            end
          else
            match scan_constant s with
            | Some vr => Ok vr
            | None => DecodeError
            end
      end
  end

with array_loop (fuel : nat) (s : pystr) {struct fuel}
  : result (list value * pystr) :=
  match fuel with
  | O => OutOfFuel
  | S f =>
      match scan_once f s with
      | Ok (v, s1) =>
          match skip_ws s1 with
          | c :: s2 =>
              if c =? 93 then Ok ([v], s2)
              else if c =? 44 then
                match array_loop f (skip_ws s2) with
                | Ok (l, r) => Ok (v :: l, r)
                | DecodeError => DecodeError
                | OutOfFuel => OutOfFuel
                end
              else DecodeError
          | [] => DecodeError
          end
      | DecodeError => DecodeError
      | OutOfFuel => OutOfFuel
      end
  end

with object_loop (fuel : nat) (s : pystr) {struct fuel}
  : result (list (pystr * value) * pystr) :=
  match fuel with
  | O => OutOfFuel
  | S f =>
      match s with
      | q :: s0 =>
          if q =? 34 then
            match scanstring s0 with
            | Some (k, s1) =>
                match skip_ws s1 with
                | colon :: s2 =>
                    if colon =? 58 then
                      match scan_once f (skip_ws s2) with
                      | Ok (v, s3) =>
                          match skip_ws s3 with
                          | c :: s4 =>
                              if c =? 125 then Ok ([(k, v)], s4)
                              else if c =? 44 then
                                match object_loop f (skip_ws s4) with
                                | Ok (l, r) => Ok ((k, v) :: l, r)
                                | DecodeError => DecodeError
                                | OutOfFuel => OutOfFuel
                                end
                              else DecodeError
                          | [] => DecodeError
                          end
                      | DecodeError => DecodeError
                      | OutOfFuel => OutOfFuel
                      end
                    else DecodeError
                | [] => DecodeError
                end
            | None => DecodeError
            end
          else DecodeError
      | [] => DecodeError
      end
  end.

(** [json.loads(s)]: no byte order mark, one value between white space
    and nothing after it. *)
Definition loads (s : pystr) : result value :=
  if PyStr.startswith s [65279] then DecodeError
  else
    match scan_once (S (2 * length s)) (skip_ws s) with
    | Ok (v, r) =>
        match skip_ws r with
        | [] => Ok v
        | _ :: _ => DecodeError
        end
    | DecodeError => DecodeError
    | OutOfFuel => OutOfFuel
    end.

End Json.

(* ===================================================================== *)
(** * Tasks *)
(* ===================================================================== *)

(** The dictionary built at line 310. *)
Record Task : Type := mkTask {
  text : pystr;
  due : pystr;
  priority : pystr;
  completed : bool
}.

(** The values a task dictionary holds. *)
Inductive PyVal : Type :=
| VStr (s : pystr)
| VBool (b : bool).

(** [x.get(key)] on a task dictionary. *)
Definition task_get (x : Task) (key : pystr) : option PyVal :=
  if PyStr.eqb key (str "text") then Some (VStr (text x))
  else if PyStr.eqb key (str "due") then Some (VStr (due x))
  else if PyStr.eqb key (str "priority") then Some (VStr (priority x))
  else if PyStr.eqb key (str "completed") then Some (VBool (completed x))
  else None.

(** [x.get(key, default)] *)
Definition task_get_default (x : Task) (key : pystr) (default : PyVal) : PyVal :=
  match task_get x key with Some v => v | None => default end.

(** [str(v)] *)
Definition py_str (v : PyVal) : pystr :=
  match v with
  | VStr s => s
  | VBool true => str "True"
  | VBool false => str "False"
  end.

(** [priority_order = {"Low": 1, "Normal": 2, "High": 3}] (line 218). *)
Definition priority_order : list (pystr * Z) :=
  [(str "Low", 1%Z); (str "Normal", 2%Z); (str "High", 3%Z)].

(** [d.get(k, default)] on a dictionary with string keys; a key that is
    not a string is in no such dictionary. *)
Fixpoint dict_get (d : list (pystr * Z)) (k : PyVal) (default : Z) : Z :=
  match d with
  | [] => default
  | (k', v) :: d' =>
      match k with
      | VStr s => if PyStr.eqb s k' then v else dict_get d' k default
      | VBool _ => default
      end
  end.

(** The two sort keys of [sort_tasks] (lines 219 and 222). *)
Definition priority_key (key : pystr) (x : Task) : Z :=
  dict_get priority_order (task_get_default x key (VStr PyStr.empty)) 0%Z.

Definition string_key (key : pystr) (x : Task) : pystr :=
  py_str (task_get_default x key (VStr PyStr.empty)).

(** ** Tasks as JSON *)

(** [sep.join(l)] *)
Fixpoint join (sep : pystr) (l : list pystr) : pystr :=
  match l with
  | [] => []
  | [x] => x
  | x :: l' => x ++ sep ++ join sep l'
  end.

(** [json.dumps] of a boolean. *)
Definition dumps_bool (b : bool) : pystr :=
  if b then str "true" else str "false".

(** [json.dumps] of a task dictionary: its four keys in the order of
    line 310. *)
Definition dumps_task (t : Task) : pystr :=
  str "{" ++
  join (str ", ")
    [Json.encode_basestring_ascii (str "text") ++ str ": " ++
       Json.encode_basestring_ascii (text t);
     Json.encode_basestring_ascii (str "due") ++ str ": " ++
       Json.encode_basestring_ascii (due t);
     Json.encode_basestring_ascii (str "priority") ++ str ": " ++
       Json.encode_basestring_ascii (priority t);
     Json.encode_basestring_ascii (str "completed") ++ str ": " ++
       dumps_bool (completed t)] ++
  str "}".

(** [json.dumps(self.tasks)] *)
Definition dumps_tasks (l : list Task) : pystr :=
  str "[" ++ join (str ", ") (List.map dumps_task l) ++ str "]".

(** The task a decoded object stands for, when it is a dictionary of the
    four task keys with strings and a boolean. *)
Definition task_of_value (v : Json.value) : option Task :=
  match v with
  | Json.Object d =>
      match Json.dict_lookup (str "text") d, Json.dict_lookup (str "due") d,
            Json.dict_lookup (str "priority") d,
            Json.dict_lookup (str "completed") d with
      | Some (Json.String t), Some (Json.String u), Some (Json.String p),
        Some (Json.Bool c) =>
          if Nat.eqb (List.length d) 4 then Some (mkTask t u p c) else None
      | _, _, _, _ => None
      end
  | _ => None
  end.

Fixpoint tasks_of_values (l : list Json.value) : option (list Task) :=
  match l with
  | [] => Some []
  | v :: l' =>
      match task_of_value v, tasks_of_values l' with
      | Some t, Some ts => Some (t :: ts)
      | _, _ => None
      end
  end.

(** The task list a decoded document stands for. *)
Definition tasks_of_value (v : Json.value) : option (list Task) :=
  match v with
  | Json.Array l => tasks_of_values l
  | _ => None
  end.

(* ===================================================================== *)
(** * The application state *)
(* ===================================================================== *)

(** A row of the tree view: [values] and [tags] of [tree.insert]. *)
Record Row : Type := mkRow {
  row_mark : pystr;
  row_text : pystr;
  row_due : pystr;
  row_priority : pystr;
  row_tags : list pystr
}.

(** What the user sees besides the tree. *)
Inductive UiEvent : Type :=
| ShowWarning (title message : pystr)
| WindowDestroyed (title : pystr).

Record TaskMaster : Type := mkTaskMaster {
  tasks : list Task;
  filter_state : pystr;
  sort_column : option pystr;
  sort_reverse : bool;
  search_var : pystr;
  tree : list Row;
  ui : list UiEvent
}.

Definition set_tasks (l : list Task) (self : TaskMaster) : TaskMaster :=
  mkTaskMaster l (filter_state self) (sort_column self) (sort_reverse self)
               (search_var self) (tree self) (ui self).

Definition set_tree (r : list Row) (self : TaskMaster) : TaskMaster :=
  mkTaskMaster (tasks self) (filter_state self) (sort_column self)
               (sort_reverse self) (search_var self) r (ui self).

Definition set_filter_state (f : pystr) (self : TaskMaster) : TaskMaster :=
  mkTaskMaster (tasks self) f (sort_column self) (sort_reverse self)
               (search_var self) (tree self) (ui self).

Definition set_sort (c : option pystr) (r : bool) (self : TaskMaster) : TaskMaster :=
  mkTaskMaster (tasks self) (filter_state self) c r
               (search_var self) (tree self) (ui self).

Definition set_search_var (s : pystr) (self : TaskMaster) : TaskMaster :=
  mkTaskMaster (tasks self) (filter_state self) (sort_column self)
               (sort_reverse self) s (tree self) (ui self).

Definition log (e : UiEvent) (self : TaskMaster) : TaskMaster :=
  mkTaskMaster (tasks self) (filter_state self) (sort_column self)
               (sort_reverse self) (search_var self) (tree self) (ui self ++ [e]).

(** [self.sort_column == key] *)
Definition column_is (c : option pystr) (key : pystr) : bool :=
  match c with
  | None => false
  | Some k => PyStr.eqb k key
  end.

(** The date and priority boxes of a task window. *)
Record TaskForm : Type := mkTaskForm {
  month_cb : pystr;
  day_cb : pystr;
  year_cb : pystr;
  priority_cb : pystr
}.

(** [f"{month_cb.get()}-{day_cb.get()}-{year_cb.get()}"] *)
Definition due_of_form (form : TaskForm) : pystr :=
  month_cb form ++ str "-" ++ day_cb form ++ str "-" ++ year_cb form.

(** The loop of [toggle_completion] (lines 334-337): the first task with
    the text is changed, then [break]. *)
Fixpoint toggle_loop (task_text : pystr) (l : list Task) : list Task :=
  match l with
  | [] => []
  | task :: l' =>
      if PyStr.eqb (text task) task_text then
        mkTask (text task) (due task) (priority task) (negb (completed task))
        :: l'
      else task :: toggle_loop task_text l'
  end.

(** [next((t for t in self.tasks if t['text'] == old_text), None)] *)
Fixpoint find_task (old_text : pystr) (l : list Task) : option Task :=
  match l with
  | [] => None
  | t :: l' => if PyStr.eqb (text t) old_text then Some t else find_task old_text l'
  end.

(** What the closure [save_edit] keeps of [edit_task]. *)
Record EditWindow : Type := mkEditWindow {
  old_text : pystr;
  is_detailed : bool
}.

(** A value read back from a row of the tree.  [Treeview.item] passes
    each value through ttk's [_convert_stringval]: the [int] the text
    writes when [int] accepts it, the text itself otherwise. *)
Inductive TreeValue : Type :=
| TreeInt (n : Z)
| TreeStr (s : pystr).

(** [self.tree.item(selected)['values'][1]] (lines 323, 330, 344, 353);
    [py_int] is [int], [None] for [ValueError]. *)
Definition row_value (py_int : pystr -> option Z) (row : Row) : TreeValue :=
  match py_int (row_text row) with
  | Some n => TreeInt n
  | None => TreeStr (row_text row)
  end.

(** [task['text'] == value]: a text is equal to no [int]. *)
Definition text_is (task : Task) (value : TreeValue) : bool :=
  match value with
  | TreeStr s => PyStr.eqb (text task) s
  | TreeInt _ => false
  end.

(** [edit_task] up to the window (lines 349-360): nothing without a
    selection or without a task equal to the value of the row; no task
    is equal to an [int]. *)
Definition edit_task (py_int : pystr -> option Z) (selected : option Row)
           (self : TaskMaster) : option EditWindow :=
  match selected with
  | None => None
  | Some row =>
      match row_value py_int row with
      | TreeInt _ => None
      | TreeStr old_text =>
          match find_task old_text (tasks self) with
          | None => None
          | Some task =>
              Some (mkEditWindow old_text
                      (PyStr.truthy (due task) || PyStr.truthy (priority task)))
          end
      end
  end.

(** The loop of [save_edit] (lines 454-460). *)
Fixpoint edit_loop (old_text new_text : pystr) (is_detailed : bool)
         (form : TaskForm) (l : list Task) : list Task :=
  match l with
  | [] => []
  | t :: l' =>
      if PyStr.eqb (text t) old_text then
        (if is_detailed
         then mkTask new_text (due_of_form form) (priority_cb form) (completed t)
         else mkTask new_text (due t) (priority t) (completed t))
        :: l'
      else t :: edit_loop old_text new_text is_detailed form l'
  end.

(** The exceptions [load_tasks] lets through. *)
Inductive Exception : Type :=
| JSONDecodeError
| RecursionError.

(** How a method ends.  [NotTasks]: the file held a document that is not
    a list of task dictionaries; [self.tasks] is then that document, which
    [Task] does not describe. *)
Inductive Outcome : Type :=
| Returned (self : TaskMaster)
| Raised (e : Exception)
| NotTasks (doc : Json.value).

Section Store.

(** [str.lower]: the Unicode case mapping, not part of the program. *)
Variable lower : pystr -> pystr.

(** [int] on a string: the number it writes, [None] for [ValueError]. *)
Variable py_int : pystr -> option Z.

(** The three [continue] tests of [update_task_list] (lines 473-478). *)
Definition skipped (state search_text : pystr) (task : Task) : bool :=
  (PyStr.eqb state (str "active") && completed task) ||
  (PyStr.eqb state (str "completed") && negb (completed task)) ||
  (PyStr.truthy search_text &&
     negb (PyStr.contains (lower (text task)) search_text)).

(** The row inserted at lines 480-482; the mark is U+2713. *)
Definition row_of (task : Task) : Row :=
  mkRow (if completed task then [10003] else PyStr.empty)
        (text task) (due task) (priority task)
        (if completed task then [str "completed"] else []).

(** The search text of line 469. *)
Definition search_text (self : TaskMaster) : pystr :=
  PyStr.strip (lower (search_var self)).

(** The loop of [update_task_list], over the tasks left to show. *)
Fixpoint rows (state search : pystr) (l : list Task) : list Row :=
  match l with
  | [] => []
  | task :: l' =>
      if skipped state search task then rows state search l'
      else row_of task :: rows state search l'
  end.

(** [update_task_list] (lines 468-482): the tree is emptied and gets a
    row for each task that passes the filter and the search. *)
Definition update_task_list (self : TaskMaster) : TaskMaster :=
  set_tree (rows (filter_state self) (search_text self) (tasks self)) self.

(** The positions, counted from [i], of the tasks that get a row. *)
Fixpoint shown_from (i : nat) (state search : pystr) (l : list Task) : list nat :=
  match l with
  | [] => []
  | task :: l' =>
      if skipped state search task then shown_from (S i) state search l'
      else i :: shown_from (S i) state search l'
  end.

(** [set_filter] (lines 208-210). *)
Definition set_filter (state : pystr) (self : TaskMaster) : TaskMaster :=
  update_task_list (set_filter_state state self).

(** The tasks shown by the filter [state] with the search box as it is:
    their positions in [self.tasks]. *)
Definition shown (state : pystr) (self : TaskMaster) : list nat :=
  shown_from 0 state (search_text self) (tasks self).

(** [sort_tasks] (lines 212-224). *)
Definition sort_tasks (key : pystr) (self : TaskMaster) : TaskMaster :=
  let reverse :=
    if column_is (sort_column self) key then negb (sort_reverse self)
    else false in
  let self := set_sort (Some key) reverse self in
  let self :=
    if PyStr.eqb key (str "priority") then
      set_tasks (PyList.sort (priority_key key) Z.ltb (sort_reverse self)
                             (tasks self)) self
    else
      set_tasks (PyList.sort (string_key key) PyStr.ltb (sort_reverse self)
                             (tasks self)) self in
  update_task_list self.

(** [submit] of [open_task_window] (lines 301-313): [task_text] is the
    entry, [form] the date and priority boxes of the detailed window. *)
Definition submit (simple : bool) (task_text : pystr) (form : TaskForm)
           (self : TaskMaster) : TaskMaster :=
  if negb (PyStr.truthy (PyStr.strip task_text)) then
    log (ShowWarning (str "Input Error") (str "Task cannot be empty.")) self
  else
    let due := if negb simple then due_of_form form else PyStr.empty in
    let prio := if negb simple then priority_cb form else PyStr.empty in
    let task := mkTask task_text due prio false in
    let self := set_tasks (tasks self ++ [task]) self in
    let self := update_task_list self in
    log (WindowDestroyed (str "New Task")) self.

(** [toggle_completion] (lines 333-338). *)
Definition toggle_completion (task_text : pystr) (self : TaskMaster)
  : TaskMaster :=
  update_task_list (set_tasks (toggle_loop task_text (tasks self)) self).

(** [toggle_task_completion] and [toggle_selected_completion]
    (lines 319-331); [selected] is the row that has the focus.  With an
    [int] read from the row the loop of [toggle_completion] meets no
    task equal to it and only the list is shown again. *)
Definition toggle_selected_completion (selected : option Row)
           (self : TaskMaster) : TaskMaster :=
  match selected with
  | None => self
  | Some row =>
      match row_value py_int row with
      | TreeStr task_text => toggle_completion task_text self
      | TreeInt _ => update_task_list self
      end
  end.

(** [delete_selected_task] (lines 340-346): the tasks not equal to the
    value read from the selected row are kept. *)
Definition delete_selected_task (selected : option Row) (self : TaskMaster)
  : TaskMaster :=
  match selected with
  | None => self
  | Some row =>
      let task_text := row_value py_int row in
      update_task_list
        (set_tasks
           (List.filter (fun task => negb (text_is task task_text))
                        (tasks self))
           self)
  end.

(** [save_edit] of [edit_task] (lines 451-462), in the window [w]. *)
Definition save_edit (w : EditWindow) (new_text : pystr) (form : TaskForm)
           (self : TaskMaster) : TaskMaster :=
  if PyStr.truthy new_text then
    let self :=
      set_tasks (edit_loop (old_text w) new_text (is_detailed w) form
                           (tasks self)) self in
    let self := update_task_list self in
    log (WindowDestroyed (str "Edit Task")) self
  else self.

(** [load_tasks] (lines 551-555); [file] is the text of [tasks.json],
    [None] when there is no such file. *)
Definition load_tasks (file : option pystr) (self : TaskMaster) : Outcome :=
  match file with
  | None => Returned self
  | Some content =>
      match Json.loads content with
      | Json.Ok doc =>
          match tasks_of_value doc with
          | Some l => Returned (update_task_list (set_tasks l self))
          | None => NotTasks doc
          end
      | Json.DecodeError => Raised JSONDecodeError
      | Json.OutOfFuel => Raised RecursionError
      end
  end.

(** [__init__] (lines 49-93), the widgets apart: the fields of lines
    80-83, the empty search box and tree, then [load_tasks]. *)
Definition init (file : option pystr) : Outcome :=
  load_tasks file
    (mkTaskMaster [] (str "all") None false PyStr.empty [] []).

End Store.

(** [save_tasks] (lines 547-549): the text written to [tasks.json]. *)
Definition save_tasks (self : TaskMaster) : pystr :=
  dumps_tasks (tasks self).


(** A case mapping for the examples: the letters [A] to [Z]. *)
Definition ascii_lower (s : pystr) : pystr :=
  List.map (fun c => if (65 <=? c) && (c <=? 90) then c + 32 else c) s.

(* ===================================================================== *)
(** * The specification's words *)
(* ===================================================================== *)

(** The ordinal of a priority as the specification gives it: Low=1,
    Normal=2, High=3, unknown or empty=0. *)
Definition spec_ordinal (p : pystr) : Z :=
  if PyStr.eqb p (str "Low") then 1%Z
  else if PyStr.eqb p (str "Normal") then 2%Z
  else if PyStr.eqb p (str "High") then 3%Z
  else 0%Z.

(** The place of a priority in the order the specification's sentence
    gives: Low, Normal, High, then unknown. *)
Definition spec_place (p : pystr) : Z :=
  if PyStr.eqb p (str "Low") then 0%Z
  else if PyStr.eqb p (str "Normal") then 1%Z
  else if PyStr.eqb p (str "High") then 2%Z
  else 3%Z.

(** The number a run of decimal digits writes. *)
Definition decimal (s : pystr) : N :=
  fold_left (fun acc c => acc * 10 + (c - 48)) s 0.

(** The calendar date of a due string [MM-DD-YYYY], as year, month, day. *)
Definition calendar_date (d : pystr) : option (N * N * N) :=
  match d with
  | [m1; m2; 45; d1; d2; 45; y1; y2; y3; y4] =>
      if forallb Json.is_digit [m1; m2; d1; d2; y1; y2; y3; y4]
      then Some (decimal [y1; y2; y3; y4], decimal [m1; m2], decimal [d1; d2])
      else None
  | _ => None
  end.

(** One date is earlier than another. *)
Definition earlier (a b : N * N * N) : bool :=
  let '(ya, ma, da) := a in
  let '(yb, mb, db) := b in
  (ya <? yb) || ((ya =? yb) && ((ma <? mb) || ((ma =? mb) && (da <? db)))).

(** The direction [sort_tasks] sorts in (line 213). *)
Definition direction (key : pystr) (self : TaskMaster) : bool :=
  if column_is (sort_column self) key then negb (sort_reverse self) else false.

(** A text that holds white space only. *)
Definition whitespace_only (s : pystr) : Prop :=
  Forall (fun c => PyStr.isspace c = true) s.

(** [removed key l l']: [l'] is [l] without its tasks of text [key], the
    others in their order. *)
Inductive removed (key : pystr) : list Task -> list Task -> Prop :=
| removed_nil : removed key [] []
| removed_drop (t : Task) (l l' : list Task) :
    text t = key -> removed key l l' -> removed key (t :: l) l'
| removed_keep (t : Task) (l l' : list Task) :
    text t <> key -> removed key l l' -> removed key (t :: l) (t :: l').

(** The task [t] with the other completion flag. *)
Definition toggled (t : Task) : Task :=
  mkTask (text t) (due t) (priority t) (negb (completed t)).

(** A row of the tree with the text [key]. *)
Definition row_with (key : pystr) : Row :=
  mkRow PyStr.empty key PyStr.empty PyStr.empty [].






(** ** Stores used as examples *)

Definition example_form : TaskForm :=
  mkTaskForm (str "01") (str "05") (str "2024") (str "Normal").

Definition empty_store : TaskMaster :=
  mkTaskMaster [] (str "all") None false PyStr.empty [] [].

(** Two tasks, the one with a priority first. *)
Definition priority_store : TaskMaster :=
  mkTaskMaster
    [mkTask (str "Pay rent") PyStr.empty (str "Low") false;
     mkTask (str "Call Bob") PyStr.empty PyStr.empty false]
    (str "all") None false PyStr.empty [] [].

(** The two due strings of the specification's scenario. *)
Definition due_store : TaskMaster :=
  mkTaskMaster
    [mkTask (str "first") (str "02-01-2023") (str "Normal") false;
     mkTask (str "second") (str "01-05-2024") (str "Normal") false]
    (str "all") None false PyStr.empty [] [].

(** Two tasks of one text between two others. *)
Definition dup_store : TaskMaster :=
  mkTaskMaster
    [mkTask (str "Buy milk") PyStr.empty PyStr.empty false;
     mkTask (str "Dup") PyStr.empty PyStr.empty false;
     mkTask (str "Dup") (str "03-04-2025") (str "High") false;
     mkTask (str "Walk") PyStr.empty PyStr.empty true]
    (str "completed") None false PyStr.empty [] [].


(* ===================================================================== *)
(** * The rest of the application *)
(* ===================================================================== *)

(** The message boxes of the clearing commands. *)
Inductive Dialog : Type :=
| ShowInfo (title message : pystr)
| AskYesNo (title message : pystr).

(** [any(task.get("completed", False) for task in self.tasks)] *)
Definition any_completed (l : list Task) : bool :=
  existsb (fun task => completed task) l.

(** What the user does; the bindings of lines 96-106, 183, 189-201 and of
    the buttons turn each into a call of a method. *)
Inductive Action : Type :=
| Submit (simple : bool) (task_text : pystr) (form : TaskForm)
| Toggle (selected : option Row)
| Delete (selected : option Row)
| Edit (selected : option Row) (new_text : pystr) (form : TaskForm)
| Sort (key : pystr)
| Filter (state : pystr)
| Search (typed : pystr)
| ClearAll (answer : bool)
| ClearCompleted (answer : bool).

Section Commands.

Variable lower : pystr -> pystr.
Variable py_int : pystr -> option Z.

(** [clear_all_tasks] (lines 484-491); [answer] is what the user says
    when asked.  Gives the state and the boxes shown. *)
Definition clear_all_tasks (answer : bool) (self : TaskMaster)
  : TaskMaster * list Dialog :=
  match tasks self with
  | [] => (self, [ShowInfo (str "Info") (str "No tasks to clear.")])
  | _ :: _ =>
      let asked :=
        [AskYesNo (str "Confirm")
           (str "Are you sure you want to clear ALL tasks? This cannot be undone.")] in
      if answer then (update_task_list lower (set_tasks [] self), asked)
      else (self, asked)
  end.

(** [clear_completed_tasks] (lines 493-500). *)
Definition clear_completed_tasks (answer : bool) (self : TaskMaster)
  : TaskMaster * list Dialog :=
  if negb (any_completed (tasks self)) then
    (self, [ShowInfo (str "Info") (str "No completed tasks to clear.")])
  else
    let asked :=
      [AskYesNo (str "Confirm")
         (str "Are you sure you want to clear all completed tasks?")] in
    if answer then
      (update_task_list lower
         (set_tasks (List.filter (fun task => negb (completed task)) (tasks self))
                    self),
       asked)
    else (self, asked).

(** A key released in the search box (line 183): the box holds [typed]
    and the list is shown again. *)
Definition search_key_release (typed : pystr) (self : TaskMaster) : TaskMaster :=
  update_task_list lower (set_search_var typed self).

(** The edit window from its opening to [Save]: [edit_task] finds the
    task, [save_edit] changes it. *)
Definition edit_selected (selected : option Row) (new_text : pystr)
           (form : TaskForm) (self : TaskMaster) : TaskMaster :=
  match edit_task py_int selected self with
  | None => self
  | Some w => save_edit lower w new_text form self
  end.

(** The method an action calls. *)
Definition perform (a : Action) (self : TaskMaster) : TaskMaster :=
  match a with
  | Submit simple task_text form => submit lower simple task_text form self
  | Toggle selected => toggle_selected_completion lower py_int selected self
  | Delete selected => delete_selected_task lower py_int selected self
  | Edit selected new_text form => edit_selected selected new_text form self
  | Sort key => sort_tasks lower key self
  | Filter state => set_filter lower state self
  | Search typed => search_key_release typed self
  | ClearAll answer => fst (clear_all_tasks answer self)
  | ClearCompleted answer => fst (clear_completed_tasks answer self)
  end.

(** A run of actions, the first one first. *)
Definition run (actions : list Action) (self : TaskMaster) : TaskMaster :=
  fold_left (fun s a => perform a s) actions self.

(** The tree shows the tasks that pass the filter and the search. *)
Definition tree_in_step (self : TaskMaster) : Prop :=
  tree self = rows lower (filter_state self) (search_text lower self) (tasks self).

End Commands.

(** ** The day box of the task windows *)

(** The digits of [n], the last one first in the recursion. *)
Fixpoint to_decimal (fuel : nat) (n : N) (acc : pystr) : pystr :=
  match fuel with
  | O => acc
  | S f =>
      let acc' := (48 + n mod 10) :: acc in
      if n <? 10 then acc' else to_decimal f (n / 10) acc'
  end.

(** [f"{i:02d}"] for [i >= 0]. *)
Definition format_02d (i : N) : pystr :=
  match to_decimal (S (N.to_nat (N.log2 i))) i [] with
  | [d] => [48; d]
  | ds => ds
  end.

(** The month, day and year boxes and the values the day box offers. *)
Record DateBoxes : Type := mkDateBoxes {
  month_box : pystr;
  day_box : pystr;
  year_box : pystr;
  day_values : list pystr
}.

(** [max_days] of [update_days] (lines 257-266). *)
Definition max_days (month year : Z) : Z :=
  if existsb (Z.eqb month) [4; 6; 9; 11]%Z then 30%Z
  else if (month =? 2)%Z then
    if ((year mod 4 =? 0) &&
        (negb (year mod 100 =? 0) || (year mod 400 =? 0)))%Z
    then 29%Z else 28%Z
  else 31%Z.

(** [[f"{i:02d}" for i in range(1, max_days + 1)]] *)
Definition day_range (md : Z) : list pystr :=
  List.map (fun i => format_02d (N.of_nat i)) (seq 1 (Z.to_nat md)).

Section Days.

(** [int]: the number a string writes, [None] for [ValueError]. *)
Variable py_int : pystr -> option Z.

(** [update_days] (lines 251-276 and 387-412). *)
Definition update_days (b : DateBoxes) : DateBoxes :=
  match py_int (month_box b) with
  | None => b
  | Some month =>
      match py_int (year_box b) with
      | None => b
      | Some year =>
          let md := max_days month year in
          let current_day := day_box b in
          let b := mkDateBoxes (month_box b) (day_box b) (year_box b)
                               (day_range md) in
          match py_int current_day with
          | None => b
          | Some d =>
              if (d >? md)%Z then
                mkDateBoxes (month_box b) (format_02d (Z.to_N md)) (year_box b)
                            (day_values b)
              else b
          end
      end
  end.

End Days.

(** ** Placing the windows *)

(** [center_window] (lines 121-127): the place of the main window on a
    screen of [sw] by [sh]. *)
Definition center_window (width height sw sh : Z) : Z * Z :=
  ((sw / 2 - width / 2)%Z, (sh / 2 - height / 2)%Z).

(** [center_child] (lines 557-570): the place of a window of
    [win_width] by [win_height] over the main window. *)
Definition center_child (root_x root_y root_width root_height
                         win_width win_height : Z) : Z * Z :=
  ((root_x + (root_width - win_width) / 2)%Z,
   (root_y + (root_height - win_height) / 2)%Z).

(** ** The calendar *)

(** The number of the day [d] of month [m] of year [y], counted in days
    through the Gregorian calendar from 1 January 1970. *)
Definition day_number (y m d : Z) : Z :=
  let y' := if (m <=? 2)%Z then (y - 1)%Z else y in
  let era := (y' / 400)%Z in
  let yoe := (y' - era * 400)%Z in
  let mp := if (m <=? 2)%Z then (m + 9)%Z else (m - 3)%Z in
  let doy := ((153 * mp + 2) / 5 + d - 1)%Z in
  let doe := (yoe * 365 + yoe / 4 - yoe / 100 + doy)%Z in
  (era * 146097 + doe - 719468)%Z.

(** The first day of the month after month [m] of year [y]. *)
Definition next_month_start (y m : Z) : Z :=
  if (m =? 12)%Z then day_number (y + 1) 1 1 else day_number y (m + 1) 1.

(** An [int] for the examples: the strings of decimal digits. *)
Definition digits_int (s : pystr) : option Z :=
  if PyStr.truthy s && forallb Json.is_digit s
  then Some (Z.of_N (decimal s)) else None.

(** A store with a task whose text reads as a number. *)
Definition numeric_store : TaskMaster :=
  mkTaskMaster
    [mkTask (str "42") PyStr.empty PyStr.empty false;
     mkTask (str "Walk") PyStr.empty PyStr.empty true]
    (str "all") None false PyStr.empty [] [].

(** A character from space to tilde. *)
Definition printable (c : N) : Prop := 32 <= c /\ c <= 126.

(** A store with a task done, the list filtered and searched. *)
Definition busy_store : TaskMaster :=
  mkTaskMaster
    [mkTask (str "Write report") (str "03-04-2025") (str "High") true;
     mkTask (str "buy milk") PyStr.empty PyStr.empty false;
     mkTask (str "Buy stamps") (str "01-05-2024") (str "Low") false;
     mkTask (str "Call Bob") PyStr.empty PyStr.empty true]
    (str "active") (Some (str "text")) false (str " BUY ") [] [].

(* ===================================================================== *)
(** * Properties of strings *)
(* ===================================================================== *)

Module PyStrFacts.

Lemma eqb_eq (a b : pystr) : PyStr.eqb a b = true <-> a = b.
Proof.
  revert b; induction a as [|x a IH]; intros [|y b]; simpl;
    try (split; [discriminate | discriminate]); try tauto.
  rewrite andb_true_iff, N.eqb_eq, IH.
  split; [intros [-> ->]; reflexivity | intros [= -> ->]; auto].
Qed.

Lemma eqb_refl (a : pystr) : PyStr.eqb a a = true.
Proof. apply eqb_eq; reflexivity. Qed.

Lemma eqb_neq (a b : pystr) : PyStr.eqb a b = false <-> a <> b.
Proof.
  rewrite <- eqb_eq. destruct (PyStr.eqb a b); split; congruence.
Qed.

Lemma compare_refl (a : pystr) : PyStr.compare a a = Eq.
Proof.
  induction a as [|x a IH]; simpl; [reflexivity|].
  rewrite N.compare_refl; exact IH.
Qed.

Lemma compare_antisym (a b : pystr) :
  PyStr.compare b a = CompOpp (PyStr.compare a b).
Proof.
  revert b; induction a as [|x a IH]; intros [|y b]; simpl; try reflexivity.
  rewrite (N.compare_antisym x y).
  destruct (x ?= y); simpl; auto.
Qed.

(** [a <= b] and [b <= c] give [a <= c], on the three-way comparison. *)
Lemma compare_le_trans (a b c : pystr) :
  PyStr.compare a b <> Gt -> PyStr.compare b c <> Gt ->
  PyStr.compare a c <> Gt.
Proof.
  revert b c; induction a as [|x a IH]; intros [|y b] [|z c]; simpl;
    try congruence.
  destruct (N.compare_spec x y) as [Hxy|Hxy|Hxy];
    destruct (N.compare_spec y z) as [Hyz|Hyz|Hyz];
    destruct (N.compare_spec x z) as [Hxz|Hxz|Hxz];
    intros H1 H2; try congruence; try lia.
  eapply IH; eassumption.
Qed.

Lemma ltb_asym (a b : pystr) : PyStr.ltb a b = true -> PyStr.ltb b a = false.
Proof.
  unfold PyStr.ltb. rewrite (compare_antisym a b).
  destruct (PyStr.compare a b); simpl; congruence.
Qed.

Lemma ltb_false_iff (a b : pystr) :
  PyStr.ltb b a = false <-> PyStr.compare a b <> Gt.
Proof.
  unfold PyStr.ltb. rewrite (compare_antisym a b).
  destruct (PyStr.compare a b); simpl; split; congruence.
Qed.

Lemma leb_trans (a b c : pystr) :
  PyStr.ltb b a = false -> PyStr.ltb c b = false -> PyStr.ltb c a = false.
Proof.
  rewrite !ltb_false_iff. apply compare_le_trans.
Qed.

Lemma lstrip_nil_iff (s : pystr) :
  PyStr.lstrip s = [] <-> forallb PyStr.isspace s = true.
Proof.
  induction s as [|c s IH]; simpl; [tauto|].
  destruct (PyStr.isspace c); simpl; [exact IH|].
  split; discriminate.
Qed.

(** [s.strip()] is empty exactly when [s] holds white space only. *)
Lemma strip_nil_iff (s : pystr) :
  PyStr.strip s = [] <-> forallb PyStr.isspace s = true.
Proof.
  unfold PyStr.strip, PyStr.rstrip. split.
  - intros H. apply lstrip_nil_iff.
    assert (H' : PyStr.lstrip (rev (PyStr.lstrip s)) = []).
    { rewrite <- (rev_involutive (PyStr.lstrip (rev (PyStr.lstrip s)))), H.
      reflexivity. }
    apply lstrip_nil_iff in H'. rewrite forallb_forall in H'.
    destruct (PyStr.lstrip s) as [|c r] eqn:E; [reflexivity|].
    exfalso.
    assert (Hc : PyStr.isspace c = true) by (apply H', in_rev; rewrite rev_involutive; left; reflexivity).
    clear H H'. induction s as [|d s IH]; simpl in E; [discriminate|].
    destruct (PyStr.isspace d) eqn:Ed; [auto|].
    injection E as -> ->. congruence.
  - intros H. apply lstrip_nil_iff in H. rewrite H. reflexivity.
Qed.

Lemma strip_truthy (s : pystr) :
  PyStr.truthy (PyStr.strip s) = negb (forallb PyStr.isspace s).
Proof.
  destruct (forallb PyStr.isspace s) eqn:E.
  - apply strip_nil_iff in E. rewrite E. reflexivity.
  - destruct (PyStr.strip s) eqn:E'; [|reflexivity].
    apply strip_nil_iff in E'. congruence.
Qed.

End PyStrFacts.

(* ===================================================================== *)
(** * Properties of [list.sort] *)
(* ===================================================================== *)

Module PyListFacts.
Section SortFacts.
Context {A K : Type}.
Variable key : A -> K.
Variable lt : K -> K -> bool.

Hypothesis lt_asym : forall a b, lt a b = true -> lt b a = false.
Hypothesis le_trans :
  forall a b c, lt b a = false -> lt c b = false -> lt c a = false.

Lemma insert_perm (x : A) (l : list A) :
  Permutation (x :: l) (PyList.insert key lt x l).
Proof.
  induction l as [|y l IH]; simpl; [reflexivity|].
  destruct (lt (key y) (key x)); [|reflexivity].
  rewrite perm_swap. constructor. exact IH.
Qed.

Lemma stable_sort_perm (l : list A) :
  Permutation l (PyList.stable_sort key lt l).
Proof.
  induction l as [|x l IH]; simpl; [constructor|].
  rewrite <- insert_perm. constructor. exact IH.
Qed.

Lemma sort_perm (reverse : bool) (l : list A) :
  Permutation l (PyList.sort key lt reverse l).
Proof.
  unfold PyList.sort. destruct reverse.
  - rewrite <- Permutation_rev, <- stable_sort_perm. apply Permutation_rev.
  - apply stable_sort_perm.
Qed.

Lemma insert_sorted (x : A) (l : list A) :
  StronglySorted (PyList.le key lt) l -> StronglySorted (PyList.le key lt) (PyList.insert key lt x l).
Proof.
  induction 1 as [|y l Hs IH Hy]; simpl.
  - repeat constructor.
  - destruct (lt (key y) (key x)) eqn:E.
    + constructor; [exact IH|].
      apply (Permutation_Forall (insert_perm x l)).
      constructor; [|exact Hy].
      unfold PyList.le. apply lt_asym. exact E.
    + constructor; [constructor; assumption|].
      constructor; [exact E|].
      eapply Forall_impl; [|exact Hy].
      intros z Hz. unfold PyList.le in *. eapply le_trans; eassumption.
Qed.

Lemma stable_sort_sorted (l : list A) :
  StronglySorted (PyList.le key lt) (PyList.stable_sort key lt l).
Proof.
  induction l as [|x l IH]; simpl; [constructor|].
  apply insert_sorted. exact IH.
Qed.

(** Ascending [sort]: no element is smaller than one before it. *)
Lemma sort_ascending (l : list A) :
  StronglySorted (PyList.le key lt) (PyList.sort key lt false l).
Proof. apply stable_sort_sorted. Qed.

(** The sort is stable: the elements picked by a test that holds of no
    element smaller than one it picks stay in their order. *)
Lemma insert_filter (p : A -> bool) (x : A) (l : list A) :
  (forall y, p x = true -> lt (key y) (key x) = true -> p y = false) ->
  filter p (PyList.insert key lt x l) = filter p (x :: l).
Proof.
  intros Hp. induction l as [|y l IH]; simpl; [reflexivity|].
  destruct (lt (key y) (key x)) eqn:E; [|reflexivity].
  simpl in *. rewrite IH.
  destruct (p x) eqn:Ex; [|reflexivity].
  rewrite (Hp y eq_refl E). reflexivity.
Qed.

Lemma stable_sort_filter (p : A -> bool) (l : list A) :
  (forall x y, p x = true -> lt (key y) (key x) = true -> p y = false) ->
  filter p (PyList.stable_sort key lt l) = filter p l.
Proof.
  intros Hp. induction l as [|x l IH]; simpl; [reflexivity|].
  rewrite insert_filter by (apply Hp). simpl. rewrite IH. reflexivity.
Qed.

End SortFacts.

Lemma sorted_weaken {A : Type} (P Q : A -> A -> Prop) (l : list A) :
  (forall a b, P a b -> Q a b) -> StronglySorted P l -> StronglySorted Q l.
Proof.
  intros HPQ. induction 1 as [|a l _ IH Ha]; constructor; [exact IH|].
  eapply Forall_impl; [|exact Ha]. intros b. apply HPQ.
Qed.

End PyListFacts.

(* ===================================================================== *)
(** * Sorting the tasks *)
(* ===================================================================== *)

Section SortTasks.
Variable lower : pystr -> pystr.

Lemma tasks_update_task_list (self : TaskMaster) :
  tasks (update_task_list lower self) = tasks self.
Proof. reflexivity. Qed.

Lemma column_is_true (c : option pystr) (key : pystr) :
  column_is c key = true <-> c = Some key.
Proof.
  destruct c as [k|]; simpl.
  - rewrite PyStrFacts.eqb_eq. split; congruence.
  - split; discriminate.
Qed.

Lemma sort_reverse_sort_tasks (key : pystr) (self : TaskMaster) :
  sort_reverse (sort_tasks lower key self) = direction key self.
Proof.
  unfold sort_tasks. destruct (PyStr.eqb key (str "priority")); reflexivity.
Qed.

Lemma sort_column_sort_tasks (key : pystr) (self : TaskMaster) :
  sort_column (sort_tasks lower key self) = Some key.
Proof.
  unfold sort_tasks. destruct (PyStr.eqb key (str "priority")); reflexivity.
Qed.

Lemma tasks_sort_priority (self : TaskMaster) :
  tasks (sort_tasks lower (str "priority") self) =
  PyList.sort (priority_key (str "priority")) Z.ltb
              (direction (str "priority") self) (tasks self).
Proof. reflexivity. Qed.

Lemma tasks_sort_string (key : pystr) (self : TaskMaster) :
  PyStr.eqb key (str "priority") = false ->
  tasks (sort_tasks lower key self) =
  PyList.sort (string_key key) PyStr.ltb (direction key self) (tasks self).
Proof. unfold sort_tasks. intros ->. reflexivity. Qed.

(** The key of line 219 is the ordinal of the specification. *)
Lemma priority_key_ordinal (x : Task) :
  priority_key (str "priority") x = spec_ordinal (priority x).
Proof. reflexivity. Qed.

Lemma string_key_due (x : Task) : string_key (str "due") x = due x.
Proof. reflexivity. Qed.

End SortTasks.

(** C1, as amended.  Sorting by [priority] with the direction ascending
    (the flag [sort_reverse] false after the call) keeps the tasks, puts
    them in the order of the ordinal Low=1, Normal=2, High=3, unknown or
    empty=0, so unknown and empty priorities come first, then Low, Normal
    and High, and keeps the tasks of one ordinal in their order. *)
Theorem sort_priority_ascending (lower : pystr -> pystr) (self : TaskMaster) :
  sort_reverse (sort_tasks lower (str "priority") self) = false ->
  let sorted := tasks (sort_tasks lower (str "priority") self) in
  Permutation (tasks self) sorted /\
  StronglySorted
    (fun a b => (spec_ordinal (priority a) <= spec_ordinal (priority b))%Z)
    sorted /\
  (forall k : Z,
     filter (fun t => (spec_ordinal (priority t) =? k)%Z) sorted =
     filter (fun t => (spec_ordinal (priority t) =? k)%Z) (tasks self)).
Proof.
  intros Hdir. rewrite sort_reverse_sort_tasks in Hdir.
  cbv zeta. rewrite tasks_sort_priority, Hdir.
  split; [apply PyListFacts.sort_perm|]. split.
  - eapply PyListFacts.sorted_weaken
      with (P := PyList.le (priority_key (str "priority")) Z.ltb).
    + intros a b H.
      change ((spec_ordinal (priority b) <? spec_ordinal (priority a))%Z = false) in H.
      lia.
    + apply PyListFacts.sort_ascending; intros; lia.
  - intros k. unfold PyList.sort.
    apply (PyListFacts.stable_sort_filter (priority_key (str "priority")) Z.ltb).
    intros x y Hx Hlt.
    change ((spec_ordinal (priority y) <? spec_ordinal (priority x))%Z = true) in Hlt.
    lia.
Qed.

Lemma sort_priority_ascending_witness :
  sort_reverse (sort_tasks ascii_lower (str "priority") priority_store) = false /\
  let sorted := tasks (sort_tasks ascii_lower (str "priority") priority_store) in
  Permutation (tasks priority_store) sorted /\
  StronglySorted
    (fun a b => (spec_ordinal (priority a) <= spec_ordinal (priority b))%Z)
    sorted /\
  (forall k : Z,
     filter (fun t => (spec_ordinal (priority t) =? k)%Z) sorted =
     filter (fun t => (spec_ordinal (priority t) =? k)%Z) (tasks priority_store)).
Proof.
  split; [reflexivity|].
  apply (sort_priority_ascending ascii_lower priority_store). reflexivity.
Defined.

(** C1, as stated, fails: with the task of priority Low before the task
    without a priority, the ascending sort by [priority] puts the task
    without a priority first, so the tasks are not in the order Low,
    Normal, High, unknown. *)
Lemma sort_priority_unknown_first :
  let self := sort_tasks ascii_lower (str "priority") priority_store in
  sort_reverse self = false /\
  List.map priority (tasks self) = [PyStr.empty; str "Low"] /\
  ~ StronglySorted
      (fun a b => (spec_place (priority a) <= spec_place (priority b))%Z)
      (tasks self).
Proof.
  cbv zeta. split; [reflexivity|]. split; [reflexivity|].
  intros H. vm_compute in H. inversion H as [|a l _ Hall]; subst.
  inversion Hall as [|b l' Hle _]; subst. vm_compute in Hle. apply Hle. reflexivity.
Qed.

(** C5.  [sort_tasks] records its key; when the key is the column of the
    sort before, the descending flag is negated; with any other key (or
    no sort before) the flag becomes false. *)
Theorem sort_direction (lower : pystr -> pystr) (self : TaskMaster) (key : pystr) :
  let self' := sort_tasks lower key self in
  sort_column self' = Some key /\
  (sort_column self = Some key -> sort_reverse self' = negb (sort_reverse self)) /\
  (sort_column self <> Some key -> sort_reverse self' = false).
Proof.
  cbv zeta. rewrite sort_column_sort_tasks, sort_reverse_sort_tasks.
  unfold direction. split; [reflexivity|]. split; intros H.
  - apply column_is_true in H. rewrite H. reflexivity.
  - destruct (column_is (sort_column self) key) eqn:E; [|reflexivity].
    apply column_is_true in E. contradiction.
Qed.

Lemma sort_direction_witness :
  let again := sort_tasks ascii_lower (str "due")
                 (sort_tasks ascii_lower (str "due") due_store) in
  let other := sort_tasks ascii_lower (str "text") again in
  sort_reverse again = true /\ sort_reverse other = false.
Proof.
  cbv zeta. split.
  - apply (sort_direction ascii_lower
             (sort_tasks ascii_lower (str "due") due_store) (str "due")).
    reflexivity.
  - apply (sort_direction ascii_lower
             (sort_tasks ascii_lower (str "due")
                (sort_tasks ascii_lower (str "due") due_store)) (str "text")).
    discriminate.
Defined.

(** C9.  Sorting by [due] ascending keeps the tasks and orders them by
    the comparison of the raw due strings, code point by code point; two
    tasks due "02-01-2023" and "01-05-2024", in this order, are swapped,
    although the first date is the earlier one. *)
Theorem sort_due_lexicographic (lower : pystr -> pystr) (self : TaskMaster) :
  sort_reverse (sort_tasks lower (str "due") self) = false ->
  let sorted := tasks (sort_tasks lower (str "due") self) in
  Permutation (tasks self) sorted /\
  StronglySorted (fun a b => PyStr.leb (due a) (due b) = true) sorted /\
  (forall t1 t2 : Task,
     tasks self = [t1; t2] ->
     due t1 = str "02-01-2023" -> due t2 = str "01-05-2024" ->
     sorted = [t2; t1] /\
     PyStr.ltb (due t2) (due t1) = true /\
     (exists d1 d2, calendar_date (due t1) = Some d1 /\
                    calendar_date (due t2) = Some d2 /\
                    earlier d1 d2 = true)).
Proof.
  intros Hdir. rewrite sort_reverse_sort_tasks in Hdir.
  cbv zeta. rewrite tasks_sort_string by reflexivity. rewrite Hdir.
  split; [apply PyListFacts.sort_perm|]. split.
  - eapply PyListFacts.sorted_weaken
      with (P := PyList.le (string_key (str "due")) PyStr.ltb).
    + intros a b H. unfold PyStr.leb.
      change (PyStr.ltb (due b) (due a) = false) in H. rewrite H. reflexivity.
    + apply PyListFacts.sort_ascending.
      * apply PyStrFacts.ltb_asym.
      * apply PyStrFacts.leb_trans.
  - intros t1 t2 -> H1 H2. split; [|split].
    + unfold PyList.sort. cbn [PyList.stable_sort PyList.insert].
      change (string_key (str "due") t1) with (due t1).
      change (string_key (str "due") t2) with (due t2).
      rewrite H1, H2. reflexivity.
    + rewrite H1, H2. reflexivity.
    + rewrite H1, H2. eexists; eexists. repeat split.
Qed.

Lemma sort_due_lexicographic_witness :
  List.map due (tasks (sort_tasks ascii_lower (str "due") due_store)) =
  [str "01-05-2024"; str "02-01-2023"].
Proof.
  destruct (sort_due_lexicographic ascii_lower due_store eq_refl)
    as (_ & _ & H).
  destruct (H _ _ eq_refl eq_refl eq_refl) as (-> & _).
  reflexivity.
Defined.

(* ===================================================================== *)
(** * Adding, toggling, deleting and editing *)
(* ===================================================================== *)

Section Changes.
Variable lower : pystr -> pystr.

Lemma whitespace_only_forallb (s : pystr) :
  whitespace_only s <-> forallb PyStr.isspace s = true.
Proof.
  unfold whitespace_only. rewrite forallb_forall, Forall_forall. tauto.
Qed.

Lemma strip_empty_iff (s : pystr) :
  PyStr.strip s = [] <-> whitespace_only s.
Proof.
  rewrite whitespace_only_forallb. apply PyStrFacts.strip_nil_iff.
Qed.

Lemma submit_rejected (simple : bool) (task_text : pystr) (form : TaskForm)
      (self : TaskMaster) :
  whitespace_only task_text ->
  submit lower simple task_text form self =
  log (ShowWarning (str "Input Error") (str "Task cannot be empty.")) self.
Proof.
  intros H. apply strip_empty_iff in H. unfold submit. rewrite H. reflexivity.
Qed.

Lemma submit_accepted (simple : bool) (task_text : pystr) (form : TaskForm)
      (self : TaskMaster) :
  PyStr.strip task_text <> [] ->
  tasks (submit lower simple task_text form self) =
  tasks self ++
    [mkTask task_text
            (if negb simple then due_of_form form else PyStr.empty)
            (if negb simple then priority_cb form else PyStr.empty)
            false].
Proof.
  intros H. unfold submit.
  destruct (PyStr.strip task_text); [congruence|]. reflexivity.
Qed.

Lemma toggle_loop_none (key : pystr) (l : list Task) :
  Forall (fun t => text t <> key) l -> toggle_loop key l = l.
Proof.
  induction 1 as [|t l Ht _ IH]; simpl; [reflexivity|].
  apply PyStrFacts.eqb_neq in Ht. rewrite Ht, IH. reflexivity.
Qed.

Lemma toggle_loop_first (key : pystr) (pre post : list Task) (t : Task) :
  Forall (fun t => text t <> key) pre -> text t = key ->
  toggle_loop key (pre ++ t :: post) = pre ++ toggled t :: post.
Proof.
  intros Hpre Ht. induction Hpre as [|t0 pre H0 _ IH]; simpl.
  - rewrite (proj2 (PyStrFacts.eqb_eq _ _) Ht). reflexivity.
  - apply PyStrFacts.eqb_neq in H0. rewrite H0, IH. reflexivity.
Qed.

Lemma edit_loop_first (old new : pystr) (detailed : bool) (form : TaskForm)
      (pre post : list Task) (t : Task) :
  Forall (fun t => text t <> old) pre -> text t = old ->
  edit_loop old new detailed form (pre ++ t :: post) =
  pre ++
    (if detailed
     then mkTask new (due_of_form form) (priority_cb form) (completed t)
     else mkTask new (due t) (priority t) (completed t)) :: post.
Proof.
  intros Hpre Ht. induction Hpre as [|t0 pre H0 _ IH]; simpl.
  - rewrite (proj2 (PyStrFacts.eqb_eq _ _) Ht). reflexivity.
  - apply PyStrFacts.eqb_neq in H0. rewrite H0, IH. reflexivity.
Qed.

Lemma filter_removed (key : pystr) (l : list Task) :
  removed key l (filter (fun task => negb (PyStr.eqb (text task) key)) l).
Proof.
  induction l as [|t l IH]; simpl; [constructor|].
  destruct (PyStr.eqb (text t) key) eqn:E; simpl.
  - apply removed_drop; [apply PyStrFacts.eqb_eq; exact E | exact IH].
  - apply removed_keep; [apply PyStrFacts.eqb_neq; exact E | exact IH].
Qed.

Lemma filter_none (key : pystr) (l : list Task) :
  Forall (fun t => text t <> key) l ->
  filter (fun task => negb (PyStr.eqb (text task) key)) l = l.
Proof.
  induction 1 as [|t l Ht _ IH]; simpl; [reflexivity|].
  apply PyStrFacts.eqb_neq in Ht. rewrite Ht, IH. reflexivity.
Qed.

Lemma filter_all_differ (key : pystr) (l : list Task) :
  Forall (fun t => text t <> key)
         (filter (fun task => negb (PyStr.eqb (text task) key)) l).
Proof.
  apply Forall_forall. intros t Ht. apply filter_In in Ht.
  destruct Ht as [_ Ht]. apply negb_true_iff, PyStrFacts.eqb_neq in Ht.
  exact Ht.
Qed.

Lemma row_value_str (py_int : pystr -> option Z) (row : Row) :
  py_int (row_text row) = None -> row_value py_int row = TreeStr (row_text row).
Proof. intros H. unfold row_value. rewrite H. reflexivity. Qed.

Lemma row_value_int (py_int : pystr -> option Z) (row : Row) (n : Z) :
  py_int (row_text row) = Some n -> row_value py_int row = TreeInt n.
Proof. intros H. unfold row_value. rewrite H. reflexivity. Qed.

Lemma filter_keeps_all (l : list Task) : filter (fun _ => true) l = l.
Proof. induction l as [|t l IH]; simpl; [|rewrite IH]; reflexivity. Qed.

(** With a text [int] rejects the delete is by that text. *)
Lemma tasks_delete_text (py_int : pystr -> option Z) (row : Row)
      (self : TaskMaster) :
  py_int (row_text row) = None ->
  tasks (delete_selected_task lower py_int (Some row) self) =
  filter (fun task => negb (PyStr.eqb (text task) (row_text row))) (tasks self).
Proof.
  intros H. unfold delete_selected_task. rewrite (row_value_str _ _ H).
  reflexivity.
Qed.

(** With a text [int] accepts the delete keeps every task. *)
Lemma tasks_delete_int (py_int : pystr -> option Z) (row : Row) (n : Z)
      (self : TaskMaster) :
  py_int (row_text row) = Some n ->
  tasks (delete_selected_task lower py_int (Some row) self) = tasks self.
Proof.
  intros H. unfold delete_selected_task. rewrite (row_value_int _ _ _ H).
  cbn [tasks update_task_list set_tree set_tasks text_is negb].
  apply filter_keeps_all.
Qed.

End Changes.

(** C2, as amended.  In the add window an empty text shows the warning
    "Task cannot be empty."; the window stays and nothing else changes.
    In the edit window an empty text changes nothing at all: no warning,
    no message, the window stays, the store is the same. *)
Theorem empty_text_rejected (lower : pystr -> pystr) (self : TaskMaster) :
  (forall (simple : bool) (form : TaskForm),
     let self' := submit lower simple PyStr.empty form self in
     ui self' =
       ui self ++ [ShowWarning (str "Input Error") (str "Task cannot be empty.")] /\
     tasks self' = tasks self /\ tree self' = tree self) /\
  (forall (w : EditWindow) (form : TaskForm),
     save_edit lower w PyStr.empty form self = self).
Proof.
  split.
  - intros simple form. cbv zeta. repeat split.
  - intros w form. reflexivity.
Qed.

(** C2, as stated, fails for edit: saving the empty text in the edit
    window of an existing task shows no warning. *)
Lemma edit_empty_no_warning :
  exists w : EditWindow,
    edit_task digits_int (Some (row_with (str "Pay rent"))) priority_store = Some w /\
    forall title message : pystr,
      ~ In (ShowWarning title message)
           (ui (save_edit ascii_lower w PyStr.empty example_form priority_store)).
Proof.
  eexists. split; [reflexivity|].
  intros title message H. exact H.
Qed.

(** C3.  A text that is not empty after [strip] adds exactly one task, at
    the end, with that text and [completed] false; a text of white space
    only is rejected and the tasks stay as they are. *)
Theorem add_task (lower : pystr -> pystr) (self : TaskMaster)
        (simple : bool) (task_text : pystr) (form : TaskForm) :
  let self' := submit lower simple task_text form self in
  (PyStr.strip task_text <> [] ->
     (exists task : Task,
        tasks self' = tasks self ++ [task] /\
        text task = task_text /\ completed task = false) /\
     List.length (tasks self') = S (List.length (tasks self))) /\
  (whitespace_only task_text -> tasks self' = tasks self).
Proof.
  cbv zeta. split.
  - intros H. rewrite (submit_accepted lower simple task_text form self H).
    split.
    + eexists. split; [reflexivity|]. split; reflexivity.
    + rewrite length_app. simpl. lia.
  - intros H. rewrite (submit_rejected lower simple task_text form self H).
    reflexivity.
Qed.

Lemma add_task_witness :
  (exists task : Task,
     tasks (submit ascii_lower true (str " Buy milk") example_form priority_store) =
       tasks priority_store ++ [task] /\
     text task = str " Buy milk" /\ completed task = false) /\
  tasks (submit ascii_lower false (str "  ") example_form priority_store) =
    tasks priority_store.
Proof.
  split.
  - apply (add_task ascii_lower priority_store true (str " Buy milk") example_form).
    discriminate.
  - apply (add_task ascii_lower priority_store false (str "  ") example_form).
    repeat constructor.
Defined.

(** What the delete and the toggle do for a text [int] rejects.
    Deleting leaves no task of that text and keeps the other tasks in
    their order; toggling with the text changes the first task of that
    text only, to the other completion flag, whatever comes after it;
    when no task has the text, both leave the tasks as they are. *)
Lemma delete_all_toggle_first (lower : pystr -> pystr)
      (py_int : pystr -> option Z) (self : TaskMaster) (key : pystr) :
  py_int key = None ->
  let deleted :=
    tasks (delete_selected_task lower py_int (Some (row_with key)) self) in
  let toggled_tasks := tasks (toggle_completion lower key self) in
  (removed key (tasks self) deleted /\
   Forall (fun t => text t <> key) deleted) /\
  (forall (pre post : list Task) (t : Task),
     tasks self = pre ++ t :: post ->
     Forall (fun t => text t <> key) pre -> text t = key ->
     toggled_tasks = pre ++ toggled t :: post) /\
  (Forall (fun t => text t <> key) (tasks self) ->
     deleted = tasks self /\ toggled_tasks = tasks self).
Proof.
  intros Hkey. cbv zeta.
  rewrite (tasks_delete_text lower py_int (row_with key) self Hkey).
  simpl. repeat split.
  - apply filter_removed.
  - apply filter_all_differ.
  - intros pre post t -> Hpre Ht. apply toggle_loop_first; assumption.
  - apply filter_none; assumption.
  - apply toggle_loop_none; assumption.
Qed.

Lemma delete_all_toggle_first_witness :
  List.map text (tasks (delete_selected_task ascii_lower digits_int
                          (Some (row_with (str "Dup"))) dup_store)) =
    [str "Buy milk"; str "Walk"] /\
  List.map completed (tasks (toggle_completion ascii_lower (str "Dup") dup_store)) =
    [false; true; false; true] /\
  tasks (toggle_completion ascii_lower (str "Nothing") dup_store) = tasks dup_store.
Proof.
  destruct (delete_all_toggle_first ascii_lower digits_int dup_store (str "Dup")
              eq_refl)
    as (_ & Htoggle & _).
  destruct (delete_all_toggle_first ascii_lower digits_int dup_store
              (str "Nothing") eq_refl)
    as (_ & _ & Hnone).
  split; [reflexivity|]. split.
  - rewrite (Htoggle [mkTask (str "Buy milk") PyStr.empty PyStr.empty false]
                     [mkTask (str "Dup") (str "03-04-2025") (str "High") false;
                      mkTask (str "Walk") PyStr.empty PyStr.empty true]
                     (mkTask (str "Dup") PyStr.empty PyStr.empty false)).
    + reflexivity.
    + reflexivity.
    + repeat constructor. discriminate.
    + reflexivity.
  - apply Hnone. repeat constructor; discriminate.
Defined.

(** C4.  The code against the claim: when the text of the selected row
    is one [int] accepts, the value read from the row is an [int], no
    task is equal to it, and [delete_selected_task] removes nothing:
    the tasks of that text are all still there. *)
Theorem delete_numeric_text_keeps_all (lower : pystr -> pystr)
        (py_int : pystr -> option Z) (self : TaskMaster) (row : Row) (n : Z) :
  py_int (row_text row) = Some n ->
  tasks (delete_selected_task lower py_int (Some row) self) = tasks self /\
  (forall t : Task,
     In t (tasks self) -> text t = row_text row ->
     In t (tasks (delete_selected_task lower py_int (Some row) self))).
Proof.
  intros H. rewrite (tasks_delete_int lower py_int row n self H).
  split; [reflexivity | intros t Ht _; exact Ht].
Qed.

Lemma delete_numeric_text_keeps_all_witness :
  List.map text
    (tasks (delete_selected_task ascii_lower digits_int
              (Some (row_with (str "42"))) numeric_store)) =
  [str "42"; str "Walk"].
Proof.
  destruct (delete_numeric_text_keeps_all ascii_lower digits_int numeric_store
              (row_with (str "42")) 42%Z eq_refl) as [-> _].
  reflexivity.
Defined.

(** C10.  [save_edit] refuses the empty text only: a new text that is not
    empty and holds white space only becomes the text of the first task
    with the old text, the other tasks staying as they are, so the store
    then holds a task whose text is white space; [submit] refuses the
    same text. *)
Theorem edit_accepts_whitespace (lower : pystr -> pystr) (self : TaskMaster)
        (w : EditWindow) (new_text : pystr) (form : TaskForm)
        (pre post : list Task) (t : Task) :
  new_text <> [] -> whitespace_only new_text ->
  tasks self = pre ++ t :: post ->
  Forall (fun t => text t <> old_text w) pre -> text t = old_text w ->
  (exists t' : Task,
     tasks (save_edit lower w new_text form self) = pre ++ t' :: post /\
     text t' = new_text /\ completed t' = completed t /\
     whitespace_only (text t')) /\
  (forall simple : bool,
     tasks (submit lower simple new_text form self) = tasks self).
Proof.
  intros Hne Hws Htasks Hpre Ht. split.
  - unfold save_edit. destruct new_text as [|c r]; [congruence|]. simpl.
    rewrite Htasks, (edit_loop_first _ _ _ _ _ _ _ Hpre Ht).
    eexists. split; [reflexivity|].
    destruct (is_detailed w); simpl; auto.
  - intros simple. rewrite (submit_rejected lower simple new_text form self Hws).
    reflexivity.
Qed.

Lemma edit_accepts_whitespace_witness :
  (exists t' : Task,
     tasks (save_edit ascii_lower (mkEditWindow (str "Call Bob") false)
                      (str " ") example_form priority_store) =
       [mkTask (str "Pay rent") PyStr.empty (str "Low") false] ++ t' :: [] /\
     text t' = str " " /\ completed t' = false /\ whitespace_only (text t')) /\
  (forall simple : bool,
     tasks (submit ascii_lower simple (str " ") example_form priority_store) =
       tasks priority_store).
Proof.
  apply (edit_accepts_whitespace ascii_lower priority_store
           (mkEditWindow (str "Call Bob") false) (str " ") example_form
           [mkTask (str "Pay rent") PyStr.empty (str "Low") false] []
           (mkTask (str "Call Bob") PyStr.empty PyStr.empty false)).
  - discriminate.
  - repeat constructor.
  - reflexivity.
  - repeat constructor. discriminate.
  - reflexivity.
Defined.

(* ===================================================================== *)
(** * Filtering *)
(* ===================================================================== *)

Section Filtering.
Variable lower : pystr -> pystr.

(** The positions shown are those of the tasks no test skips. *)
Lemma in_shown_from (state search : pystr) (l : list Task) (k i : nat) :
  In i (shown_from lower k state search l) <->
  (k <= i)%nat /\
  exists task, nth_error l (i - k) = Some task /\
               skipped lower state search task = false.
Proof.
  revert k. induction l as [|t l IH]; intros k; simpl.
  - split; [tauto|]. intros (_ & task & H & _).
    destruct (i - k)%nat; discriminate.
  - assert (Hstep : In i (shown_from lower (S k) state search l) <->
                    (k < i)%nat /\
                    exists task, nth_error (t :: l) (i - k) = Some task /\
                                 skipped lower state search task = false).
    { rewrite IH. split.
      - intros (Hk & task & Hn & Hs). split; [lia|]. exists task.
        replace (i - k)%nat with (S (i - S k)) by lia. auto.
      - intros (Hk & task & Hn & Hs). split; [lia|]. exists task.
        replace (i - k)%nat with (S (i - S k)) in Hn by lia. auto. }
    destruct (skipped lower state search t) eqn:E; simpl; rewrite Hstep.
    + split.
      * intros (Hk & H). split; [lia | exact H].
      * intros (Hk & task & Hn & Hs). split; [|eauto].
        destruct (Nat.eq_dec i k) as [->|]; [|lia].
        rewrite Nat.sub_diag in Hn. simpl in Hn. congruence.
    + split.
      * intros [<- | (Hk & H)].
        -- split; [lia|]. exists t. rewrite Nat.sub_diag. auto.
        -- split; [lia | exact H].
      * intros (Hk & H). destruct (Nat.eq_dec k i) as [->|]; [left; reflexivity|].
        right. split; [lia | exact H].
Qed.

(** The rows of the tree are the rows of the positions shown. *)
Lemma rows_shown_from (state search : pystr) (l : list Task) (k : nat) :
  List.map (fun i => option_map (row_of) (nth_error l (i - k)))
           (shown_from lower k state search l) =
  List.map Some (rows lower state search l).
Proof.
  revert k. induction l as [|t l IH]; intros k; simpl; [reflexivity|].
  assert (Hshift :
    List.map (fun i => option_map row_of (nth_error (t :: l) (i - k)))
             (shown_from lower (S k) state search l) =
    List.map (fun i => option_map row_of (nth_error l (i - S k)))
             (shown_from lower (S k) state search l)).
  { apply map_ext_in. intros i Hi. apply in_shown_from in Hi.
    destruct Hi as (Hk & _).
    replace (i - k)%nat with (S (i - S k)) by lia. reflexivity. }
  destruct (skipped lower state search t); simpl.
  - rewrite Hshift. apply IH.
  - rewrite Nat.sub_diag. simpl. f_equal. rewrite Hshift. apply IH.
Qed.

Lemma skipped_all (search : pystr) (task : Task) :
  skipped lower (str "all") search task =
  PyStr.truthy search && negb (PyStr.contains (lower (text task)) search).
Proof. reflexivity. Qed.

Lemma skipped_active (search : pystr) (task : Task) :
  skipped lower (str "active") search task =
  completed task || skipped lower (str "all") search task.
Proof. unfold skipped. simpl. destruct (completed task); reflexivity. Qed.

Lemma skipped_completed (search : pystr) (task : Task) :
  skipped lower (str "completed") search task =
  negb (completed task) || skipped lower (str "all") search task.
Proof. unfold skipped. simpl. destruct (completed task); reflexivity. Qed.

End Filtering.

(** C6.  With the search box as it is, no task is shown by both the
    filter "active" and the filter "completed", and a task is shown by
    the filter "all" exactly when one of the two shows it, tasks being
    told apart by their place in the list; setting a filter fills the
    tree with the rows of the tasks shown and leaves the task list as it
    was. *)
Theorem filter_partition (lower : pystr -> pystr) (self : TaskMaster) :
  (forall i : nat,
     In i (shown lower (str "active") self) ->
     ~ In i (shown lower (str "completed") self)) /\
  (forall i : nat,
     In i (shown lower (str "all") self) <->
     In i (shown lower (str "active") self) \/
     In i (shown lower (str "completed") self)) /\
  (forall state : pystr,
     tasks (set_filter lower state self) = tasks self /\
     List.map Some (tree (set_filter lower state self)) =
     List.map (fun i => option_map row_of (nth_error (tasks self) i))
              (shown lower state self)).
Proof.
  unfold shown. split; [|split].
  - intros i. rewrite !in_shown_from.
    intros (_ & t1 & H1 & S1) (_ & t2 & H2 & S2).
    rewrite H1 in H2. injection H2 as <-.
    rewrite skipped_active in S1. rewrite skipped_completed in S2.
    destruct (completed t1); simpl in *; discriminate.
  - intros i. rewrite !in_shown_from. split.
    + intros (Hk & t & Hn & Hs).
      destruct (completed t) eqn:E; [right | left]; (split; [exact Hk|]);
        exists t; (split; [exact Hn|]).
      * rewrite skipped_completed, E. exact Hs.
      * rewrite skipped_active, E. exact Hs.
    + intros [(Hk & t & Hn & Hs) | (Hk & t & Hn & Hs)];
        (split; [exact Hk|]); exists t; (split; [exact Hn|]).
      * rewrite skipped_active in Hs. apply orb_false_iff in Hs. tauto.
      * rewrite skipped_completed in Hs. apply orb_false_iff in Hs. tauto.
  - intros state. split; [reflexivity|].
    unfold set_filter, update_task_list. simpl.
    rewrite <- (rows_shown_from lower state _ (tasks self) 0).
    apply map_ext. intros i. rewrite Nat.sub_0_r. reflexivity.
Qed.

(* ===================================================================== *)
(** * Properties of the [json] module *)
(* ===================================================================== *)

(** Turn the comparisons among the hypotheses into arithmetic. *)
Ltac arith_hyps :=
  repeat match goal with
  | H : (_ && _) = true |- _ => apply andb_true_iff in H; destruct H
  | H : (_ || _) = false |- _ => apply orb_false_iff in H; destruct H
  | H : negb _ = true |- _ => apply negb_true_iff in H
  | H : negb _ = false |- _ => apply negb_false_iff in H
  | H : (_ =? _) = true |- _ => apply N.eqb_eq in H
  | H : (_ =? _) = false |- _ => apply N.eqb_neq in H
  | H : (_ <? _) = true |- _ => apply N.ltb_lt in H
  | H : (_ <? _) = false |- _ => apply N.ltb_ge in H
  | H : (_ <=? _) = true |- _ => apply N.leb_le in H
  | H : (_ <=? _) = false |- _ => apply N.leb_gt in H
  end.

(** Decide a comparison of the goal by arithmetic. *)
Ltac decide_test b :=
  let E := fresh "E" in
  destruct b eqn:E; arith_hyps; try lia.


Module JsonFacts.
Import Json.







Lemma scan_once_S (f : nat) (s : pystr) :
  scan_once (S f) s =
  match s with
  | [] => DecodeError
  | c :: s1 =>
      if c =? 34 then
        match scanstring s1 with
        | Some (chars, r) => Ok (String chars, r)
        | None => DecodeError
        end
      else if c =? 123 then
        match skip_ws s1 with
        | c2 :: s2 =>
            if c2 =? 125 then Ok (Object [], s2)
            else
              match object_loop f (c2 :: s2) with
              | Ok (pairs, r) => Ok (Object (dict_of_pairs pairs), r)
              | DecodeError => DecodeError
              | OutOfFuel => OutOfFuel
              end
        | [] => DecodeError
        end
      else if c =? 91 then
        match skip_ws s1 with
        | c2 :: s2 =>
            if c2 =? 93 then Ok (Array [], s2)
            else
              match array_loop f (c2 :: s2) with
              | Ok (l, r) => Ok (Array l, r)
              | DecodeError => DecodeError
              | OutOfFuel => OutOfFuel
              end
        | [] => DecodeError
        end
      else
        match scan_constant s with
        | Some vr => Ok vr
        | None => DecodeError
        end
  end.
Proof. reflexivity. Qed.

Lemma array_loop_S (f : nat) (s : pystr) :
  array_loop (S f) s =
  match scan_once f s with
  | Ok (v, s1) =>
      match skip_ws s1 with
      | c :: s2 =>
          if c =? 93 then Ok ([v], s2)
          else if c =? 44 then
            match array_loop f (skip_ws s2) with
            | Ok (l, r) => Ok (v :: l, r)
            | DecodeError => DecodeError
            | OutOfFuel => OutOfFuel
            end
          else DecodeError
      | [] => DecodeError
      end
  | DecodeError => DecodeError
  | OutOfFuel => OutOfFuel
  end.
Proof. reflexivity. Qed.

Lemma object_loop_S (f : nat) (s : pystr) :
  object_loop (S f) s =
  match s with
  | q :: s0 =>
      if q =? 34 then
        match scanstring s0 with
        | Some (k, s1) =>
            match skip_ws s1 with
            | colon :: s2 =>
                if colon =? 58 then
                  match scan_once f (skip_ws s2) with
                  | Ok (v, s3) =>
                      match skip_ws s3 with
                      | c :: s4 =>
                          if c =? 125 then Ok ([(k, v)], s4)
                          else if c =? 44 then
                            match object_loop f (skip_ws s4) with
                            | Ok (l, r) => Ok ((k, v) :: l, r)
                            | DecodeError => DecodeError
                            | OutOfFuel => OutOfFuel
                            end
                          else DecodeError
                      | [] => DecodeError
                      end
                  | DecodeError => DecodeError
                  | OutOfFuel => OutOfFuel
                  end
                else DecodeError
            | [] => DecodeError
            end
        | None => DecodeError
        end
      else DecodeError
  | [] => DecodeError
  end.
Proof. reflexivity. Qed.































(** Case analysis on every test of a hypothesis. *)
Ltac break H :=
  repeat match type of H with
  | context [if ?b then _ else _] => destruct b eqn:?
  | context [match ?x with _ => _ end] => destruct x eqn:?
  end; try discriminate.

Lemma skip_ws_length (s : pystr) :
  (List.length (skip_ws s) <= List.length s)%nat.
Proof.
  induction s as [|c s IH]; simpl; [lia|].
  destruct (is_ws c); simpl; lia.
Qed.

Lemma scanstring_shorter (n : nat) :
  forall s k r,
    (List.length s <= n)%nat -> scanstring s = Some (k, r) ->
    (List.length r < List.length s)%nat.
Proof.
  induction n as [|n IH]; intros s k r Hn H.
  - destruct s; [discriminate | simpl in Hn; lia].
  - destruct s as [|c s1]; [discriminate|].
    simpl in H. unfold push in H. break H;
      repeat match goal with
      | E : scanstring ?x = Some (_, _) |- _ =>
          apply IH in E; [|subst; simpl in *; lia]
      end;
      injection H as <- <-; subst; simpl in *; lia.
Qed.

Lemma scanstring_length (s k r : pystr) :
  scanstring s = Some (k, r) -> (List.length r < List.length s)%nat.
Proof. apply (scanstring_shorter (List.length s)). lia. Qed.

Lemma word_length (w s r : pystr) :
  word w s = Some r -> List.length s = (List.length w + List.length r)%nat.
Proof.
  revert s. induction w as [|x w IH]; intros s H; simpl in H.
  - injection H as ->. reflexivity.
  - destruct s as [|y s]; [discriminate|].
    destruct (x =? y); [|discriminate].
    apply IH in H. simpl. lia.
Qed.

Lemma digits_length (s ds r : pystr) :
  digits s = (ds, r) -> (List.length r <= List.length s)%nat.
Proof.
  revert ds r. induction s as [|c s IH]; intros ds r H; simpl in H.
  - injection H as <- <-. simpl. lia.
  - destruct (is_digit c).
    + destruct (digits s) as [ds' r'] eqn:E. injection H as <- <-.
      specialize (IH _ _ eq_refl). simpl. lia.
    + injection H as <- <-. simpl. lia.
Qed.

Lemma scan_int_length (s i r : pystr) :
  scan_int s = Some (i, r) -> (List.length r < List.length s)%nat.
Proof.
  unfold scan_int. intros H. break H.
  - injection H as <- <-. subst. simpl. lia.
  - injection H as <- <-. subst.
    match goal with E : digits _ = _ |- _ => apply digits_length in E end.
    simpl. lia.
Qed.

Lemma scan_frac_length (s f r : pystr) :
  scan_frac s = (f, r) -> (List.length r <= List.length s)%nat.
Proof.
  unfold scan_frac. intros H. break H;
    injection H as <- <-; subst;
    repeat match goal with E : digits _ = _ |- _ => apply digits_length in E end;
    simpl in *; lia.
Qed.

Lemma scan_exp_length (s e r : pystr) :
  scan_exp s = (e, r) -> (List.length r <= List.length s)%nat.
Proof.
  unfold scan_exp. intros H. break H;
    injection H as <- <-; subst;
    repeat match goal with E : digits _ = _ |- _ => apply digits_length in E end;
    simpl in *; lia.
Qed.

Lemma scan_number_length (s tok r : pystr) :
  scan_number s = Some (tok, r) -> (List.length r < List.length s)%nat.
Proof.
  unfold scan_number. intros H. break H;
    injection H as <- <-; subst;
    repeat match goal with
    | E : scan_int _ = _ |- _ => apply scan_int_length in E
    | E : scan_frac _ = _ |- _ => apply scan_frac_length in E
    | E : scan_exp _ = _ |- _ => apply scan_exp_length in E
    | E : (_, _) = (_, _) |- _ => injection E as <- <-
    end;
    match goal with
    | E : match _ with _ => _ end = (_, _) |- _ =>
        break E; injection E as <- <-
    end; simpl in *; lia.
Qed.

Lemma scan_constant_length (s r : pystr) (v : value) :
  scan_constant s = Some (v, r) -> (List.length r < List.length s)%nat.
Proof.
  unfold scan_constant. intros H. break H;
    injection H as <- <-; subst;
    repeat match goal with
    | E : word _ _ = Some _ |- _ => apply word_length in E
    | E : scan_number _ = Some _ |- _ => apply scan_number_length in E
    end; simpl in *; lia.
Qed.

(** Facts on lengths the tests of the scanner give. *)
Ltac lengths :=
  repeat match goal with
  | E : scanstring _ = Some (_, _) |- _ => apply scanstring_length in E
  | E : scan_constant _ = Some (_, _) |- _ => apply scan_constant_length in E
  | E : skip_ws ?s = _ :: _ |- _ =>
      let L := fresh "L" in
      pose proof (skip_ws_length s) as L; rewrite E in L; clear E
  end.

(** What the scanner reads, it takes from the text. *)
Lemma scan_consumes (f : nat) :
  (forall s v r, scan_once f s = Ok (v, r) ->
                 (List.length r < List.length s)%nat) /\
  (forall s l r, array_loop f s = Ok (l, r) ->
                 (List.length r < List.length s)%nat) /\
  (forall s l r, object_loop f s = Ok (l, r) ->
                 (List.length r < List.length s)%nat).
Proof.
  induction f as [|f (IHs & IHa & IHo)].
  - repeat split; intros; discriminate.
  - repeat split.
    + intros s v r H. rewrite scan_once_S in H. break H;
        repeat match goal with
        | E : object_loop f _ = Ok _ |- _ => apply IHo in E
        | E : array_loop f _ = Ok _ |- _ => apply IHa in E
        end; inversion H; subst; lengths; simpl in *; lia.
    + intros s l r H. rewrite array_loop_S in H. break H;
        repeat match goal with
        | E : scan_once f _ = Ok _ |- _ => apply IHs in E
        | E : array_loop f _ = Ok _ |- _ => apply IHa in E
        end;
        repeat match goal with
        | |- context [skip_ws ?s] => fail
        | L : context [skip_ws ?s] |- _ =>
            lazymatch goal with
            | _ : (List.length (skip_ws s) <= List.length s)%nat |- _ => fail
            | _ => pose proof (skip_ws_length s)
            end
        end;
        inversion H; subst; lengths; simpl in *; lia.
    + intros s l r H. rewrite object_loop_S in H. break H;
        repeat match goal with
        | E : scan_once f _ = Ok _ |- _ => apply IHs in E
        | E : object_loop f _ = Ok _ |- _ => apply IHo in E
        end;
        repeat match goal with
        | L : context [skip_ws ?s] |- _ =>
            lazymatch goal with
            | _ : (List.length (skip_ws s) <= List.length s)%nat |- _ => fail
            | _ => pose proof (skip_ws_length s)
            end
        end;
        inversion H; subst; lengths; simpl in *; lia.
Qed.

Ltac skip_lengths :=
  repeat match goal with
  | L : context [skip_ws ?s] |- _ =>
      lazymatch goal with
      | _ : (List.length (skip_ws s) <= List.length s)%nat |- _ => fail
      | _ => pose proof (skip_ws_length s)
      end
  end.

(** The fuel [loads] gives is never used up. *)
Lemma fuel_enough (f : nat) :
  (forall s, (2 * List.length s < f)%nat -> scan_once f s <> OutOfFuel) /\
  (forall s, (2 * List.length s + 1 < f)%nat -> array_loop f s <> OutOfFuel) /\
  (forall s, (2 * List.length s + 1 < f)%nat -> object_loop f s <> OutOfFuel).
Proof.
  induction f as [|f (IHs & IHa & IHo)].
  - repeat split; intros; lia.
  - destruct (scan_consumes f) as (Cs & Ca & Co).
    repeat split.
    + intros s Hlen H. rewrite scan_once_S in H. break H.
      * match goal with E : object_loop f _ = OutOfFuel |- _ =>
          apply IHo in E; [exact E|] end.
        lengths. simpl in *. lia.
      * match goal with E : array_loop f _ = OutOfFuel |- _ =>
          apply IHa in E; [exact E|] end.
        lengths. simpl in *. lia.
    + intros s Hlen H. rewrite array_loop_S in H. break H.
      * match goal with E : array_loop f _ = OutOfFuel |- _ =>
          apply IHa in E; [exact E|] end.
        repeat match goal with
        | E : scan_once f _ = Ok _ |- _ => apply Cs in E
        end.
        skip_lengths. lengths. simpl in *. lia.
      * match goal with E : scan_once f _ = OutOfFuel |- _ =>
          apply IHs in E; [exact E|] end.
        lia.
    + intros s Hlen H. rewrite object_loop_S in H. break H.
      * match goal with E : object_loop f _ = OutOfFuel |- _ =>
          apply IHo in E; [exact E|] end.
        repeat match goal with
        | E : scan_once f _ = Ok _ |- _ => apply Cs in E
        end.
        skip_lengths. lengths. simpl in *. lia.
      * match goal with E : scan_once f _ = OutOfFuel |- _ =>
          apply IHs in E; [exact E|] end.
        skip_lengths. lengths. simpl in *. lia.
Qed.

Lemma loads_total (s : pystr) : loads s <> OutOfFuel.
Proof.
  unfold loads. intros H. break H.
  match goal with E : scan_once _ _ = OutOfFuel |- _ =>
    apply (proj1 (fuel_enough _)) in E; [exact E|] end.
  pose proof (skip_ws_length s). lia.
Qed.

End JsonFacts.

(* ===================================================================== *)
(** * Saving and loading *)
(* ===================================================================== *)




(** C8.  Without a file the application starts with no task and nothing
    is raised; with a file that [json.loads] rejects, [load_tasks] raises
    the decoding error and so does the start, no handler being there. *)
Theorem load_missing_or_malformed (lower : pystr -> pystr) :
  init lower None = Returned empty_store /\
  (forall content : pystr,
     Json.loads content = Json.DecodeError ->
     forall self : TaskMaster,
       load_tasks lower (Some content) self = Raised JSONDecodeError) /\
  (forall content : pystr,
     Json.loads content = Json.DecodeError ->
     init lower (Some content) = Raised JSONDecodeError).
Proof.
  split; [reflexivity|]. split.
  - intros content H self. unfold load_tasks. rewrite H. reflexivity.
  - intros content H. unfold init, load_tasks. rewrite H. reflexivity.
Qed.

Lemma load_missing_or_malformed_witness :
  init ascii_lower (Some (str "[{text: Buy milk}, ")) =
  Raised JSONDecodeError.
Proof.
  apply (load_missing_or_malformed ascii_lower). reflexivity.
Defined.

(** The decoder never runs out of fuel: a start raises nothing but the
    decoding error. *)
Lemma init_never_recursion_error (lower : pystr -> pystr) (file : option pystr) :
  init lower file <> Raised RecursionError.
Proof.
  unfold init, load_tasks. destruct file as [content|]; [|discriminate].
  pose proof (JsonFacts.loads_total content) as Ht.
  destruct (Json.loads content) as [doc| |]; try discriminate.
  - destruct (tasks_of_value doc); discriminate.
  - contradiction.
Qed.

(* ===================================================================== *)
(** * More on toggling, deleting and editing *)
(* ===================================================================== *)

Section MoreChanges.
Variable lower : pystr -> pystr.



Lemma toggle_loop_fields (key : pystr) (l : list Task) :
  List.map text (toggle_loop key l) = List.map text l /\
  List.map due (toggle_loop key l) = List.map due l /\
  List.map priority (toggle_loop key l) = List.map priority l.
Proof.
  induction l as [|t l (IH1 & IH2 & IH3)]; simpl; [auto|].
  destruct (PyStr.eqb (text t) key); simpl; [auto|].
  rewrite IH1, IH2, IH3. auto.
Qed.

Lemma find_task_none (key : pystr) (l : list Task) :
  find_task key l = None <-> Forall (fun t => text t <> key) l.
Proof.
  induction l as [|t l IH]; simpl.
  - split; [constructor | reflexivity].
  - destruct (PyStr.eqb (text t) key) eqn:E.
    + split; [discriminate|]. intros H. inversion H as [|? ? Ht _]; subst.
      apply PyStrFacts.eqb_eq in E. contradiction.
    + rewrite IH. apply PyStrFacts.eqb_neq in E. split.
      * intros H. constructor; assumption.
      * intros H. inversion H; assumption.
Qed.

(** The first task of a text, and what stands before and after it. *)
Lemma find_task_some (key : pystr) (l : list Task) (t : Task) :
  find_task key l = Some t <->
  exists pre post, l = pre ++ t :: post /\
                   Forall (fun t => text t <> key) pre /\ text t = key.
Proof.
  revert t. induction l as [|t0 l IH]; intros t; simpl.
  - split; [discriminate|]. intros (pre & post & H & _). destruct pre; discriminate.
  - destruct (PyStr.eqb (text t0) key) eqn:E.
    + apply PyStrFacts.eqb_eq in E. split.
      * intros [= <-]. exists [], l. repeat split; [constructor | exact E].
      * intros (pre & post & H & Hpre & Ht). destruct pre as [|p pre].
        -- injection H as -> _. reflexivity.
        -- injection H as <- _. inversion Hpre; subst. contradiction.
    + apply PyStrFacts.eqb_neq in E. rewrite IH. split.
      * intros (pre & post & -> & Hpre & Ht). exists (t0 :: pre), post.
        repeat split; [constructor; assumption | exact Ht].
      * intros (pre & post & H & Hpre & Ht). destruct pre as [|p pre].
        -- injection H as -> _. contradiction.
        -- injection H as <- ->. inversion Hpre; subst.
           exists pre, post. auto.
Qed.

Lemma edit_loop_none (old new : pystr) (detailed : bool) (form : TaskForm)
      (l : list Task) :
  Forall (fun t => text t <> old) l -> edit_loop old new detailed form l = l.
Proof.
  induction 1 as [|t l Ht _ IH]; simpl; [reflexivity|].
  apply PyStrFacts.eqb_neq in Ht. rewrite Ht, IH. reflexivity.
Qed.

Lemma edit_loop_shape (old new : pystr) (detailed : bool) (form : TaskForm)
      (l : list Task) :
  List.length (edit_loop old new detailed form l) = List.length l /\
  List.map completed (edit_loop old new detailed form l) = List.map completed l.
Proof.
  induction l as [|t l (IH1 & IH2)]; simpl; [auto|].
  destruct (PyStr.eqb (text t) old); simpl.
  - destruct detailed; auto.
  - rewrite IH1, IH2. auto.
Qed.

Lemma filter_filter_swap (p q : Task -> bool) (l : list Task) :
  filter p (filter q l) = filter q (filter p l).
Proof.
  induction l as [|t l IH]; simpl; [reflexivity|].
  destruct (p t) eqn:Ep, (q t) eqn:Eq; simpl; rewrite ?Ep, ?Eq, IH; reflexivity.
Qed.

End MoreChanges.


(** X2.  Toggling adds no task, removes none, moves none, and changes no
    text, due date or priority. *)
Theorem toggle_keeps_fields (lower : pystr -> pystr) (self : TaskMaster)
        (key : pystr) :
  let self' := toggle_completion lower key self in
  List.length (tasks self') = List.length (tasks self) /\
  List.map text (tasks self') = List.map text (tasks self) /\
  List.map due (tasks self') = List.map due (tasks self) /\
  List.map priority (tasks self') = List.map priority (tasks self).
Proof.
  cbv zeta. simpl. destruct (toggle_loop_fields key (tasks self)) as (H1 & H2 & H3).
  repeat split; try assumption.
  rewrite <- (length_map text), H1. apply length_map.
Qed.

(** X3.  After a delete by a row whose text [int] rejects, no command
    finds a task of that text: the edit window does not open for the
    row, toggling by the text changes nothing, and a second delete
    changes nothing. *)
Theorem delete_then_not_found (lower : pystr -> pystr)
        (py_int : pystr -> option Z) (self : TaskMaster) (key : pystr) :
  py_int key = None ->
  let self' :=
    delete_selected_task lower py_int (Some (row_with key)) self in
  edit_task py_int (Some (row_with key)) self' = None /\
  tasks (toggle_completion lower key self') = tasks self' /\
  tasks (toggle_selected_completion lower py_int (Some (row_with key)) self') =
    tasks self' /\
  tasks (delete_selected_task lower py_int (Some (row_with key)) self') =
    tasks self'.
Proof.
  intros Hkey. cbv zeta.
  pose proof (tasks_delete_text lower py_int (row_with key) self Hkey) as Hdel.
  cbn [row_text row_with] in Hdel.
  pose proof (filter_all_differ key (tasks self)) as H.
  rewrite <- Hdel in H.
  split; [|split; [|split]].
  - unfold edit_task. rewrite (row_value_str py_int (row_with key) Hkey).
    cbn [row_text row_with].
    rewrite (proj2 (find_task_none key _) H). reflexivity.
  - cbn [toggle_completion tasks update_task_list set_tree set_tasks].
    apply toggle_loop_none. exact H.
  - unfold toggle_selected_completion.
    rewrite (row_value_str py_int (row_with key) Hkey).
    cbn [row_text row_with toggle_completion tasks update_task_list
         set_tree set_tasks].
    apply toggle_loop_none. exact H.
  - rewrite (tasks_delete_text lower py_int (row_with key) _ Hkey).
    apply filter_none. exact H.
Qed.

Lemma delete_then_not_found_witness :
  edit_task digits_int (Some (row_with (str "Dup")))
    (delete_selected_task ascii_lower digits_int
       (Some (row_with (str "Dup"))) dup_store) = None.
Proof.
  apply (delete_then_not_found ascii_lower digits_int dup_store (str "Dup")).
  reflexivity.
Defined.

(** X4.  Two deletes give the same task list in either order. *)
Theorem delete_commutes (lower : pystr -> pystr) (py_int : pystr -> option Z)
        (self : TaskMaster) (r1 r2 : option Row) :
  tasks (delete_selected_task lower py_int r1
           (delete_selected_task lower py_int r2 self)) =
  tasks (delete_selected_task lower py_int r2
           (delete_selected_task lower py_int r1 self)).
Proof.
  destruct r1 as [r1|], r2 as [r2|]; simpl; try reflexivity.
  apply filter_filter_swap.
Qed.

(** X5.  Adding a task whose text is not blank, is rejected by [int]
    and is the text of no task yet, and then deleting by the row of that
    text, gives back the task list as it was. *)
Theorem add_then_delete (lower : pystr -> pystr) (py_int : pystr -> option Z)
        (self : TaskMaster) (simple : bool) (task_text : pystr)
        (form : TaskForm) :
  PyStr.strip task_text <> [] ->
  py_int task_text = None ->
  Forall (fun t => text t <> task_text) (tasks self) ->
  tasks (delete_selected_task lower py_int (Some (row_with task_text))
           (submit lower simple task_text form self)) = tasks self.
Proof.
  intros Hne Hint Hnew.
  rewrite (tasks_delete_text lower py_int (row_with task_text) _ Hint).
  cbn [row_text row_with].
  rewrite (submit_accepted lower simple task_text form self Hne).
  rewrite filter_app, (filter_none task_text _ Hnew). simpl.
  rewrite PyStrFacts.eqb_refl. simpl. apply app_nil_r.
Qed.

Lemma add_then_delete_witness :
  tasks (delete_selected_task ascii_lower digits_int
           (Some (row_with (str "Walk dog")))
           (submit ascii_lower false (str "Walk dog") example_form dup_store)) =
  tasks dup_store.
Proof.
  apply (add_then_delete ascii_lower digits_int dup_store false
           (str "Walk dog") example_form).
  - discriminate.
  - reflexivity.
  - repeat constructor; discriminate.
Defined.

(** X6.  The edit window, from the click to Save, with a new text that
    is not empty.  For a row whose text [int] accepts the window never
    opens and nothing changes.  For a row whose text [int] rejects: when
    no task has that text nothing changes; otherwise the first task of
    the text gets the new text and keeps its completion flag, every
    other task stays as it is; a task with a due date or a priority gets
    both from the boxes of the window, a task with neither keeps
    neither. *)
Theorem edit_through_window (lower : pystr -> pystr)
        (py_int : pystr -> option Z) (self : TaskMaster)
        (row : Row) (new_text : pystr) (form : TaskForm) :
  new_text <> [] ->
  (forall n : Z,
     py_int (row_text row) = Some n ->
     edit_selected lower py_int (Some row) new_text form self = self) /\
  (py_int (row_text row) = None ->
   (Forall (fun t => text t <> row_text row) (tasks self) ->
    edit_selected lower py_int (Some row) new_text form self = self) /\
   (forall (pre post : list Task) (t : Task),
      tasks self = pre ++ t :: post ->
      Forall (fun t => text t <> row_text row) pre -> text t = row_text row ->
      exists t' : Task,
        tasks (edit_selected lower py_int (Some row) new_text form self) =
          pre ++ t' :: post /\
        text t' = new_text /\ completed t' = completed t /\
        (due t = [] /\ priority t = [] -> due t' = [] /\ priority t' = []) /\
        (due t <> [] \/ priority t <> [] ->
         due t' = due_of_form form /\ priority t' = priority_cb form))).
Proof.
  intros Hne. split.
  - intros n Hint. unfold edit_selected, edit_task.
    rewrite (row_value_int py_int row n Hint). reflexivity.
  - intros Hint. split.
    + intros Hnone. unfold edit_selected, edit_task.
      rewrite (row_value_str py_int row Hint).
      rewrite (proj2 (find_task_none _ _) Hnone). reflexivity.
    + intros pre post t Htasks Hpre Ht.
      assert (Hfind : find_task (row_text row) (tasks self) = Some t).
      { apply find_task_some. exists pre, post. auto. }
      unfold edit_selected, edit_task.
      rewrite (row_value_str py_int row Hint), Hfind.
      unfold save_edit. destruct new_text as [|c r]; [congruence|].
      cbn [PyStr.truthy old_text is_detailed tasks update_task_list set_tree
           log set_tasks].
      rewrite Htasks, (edit_loop_first _ _ _ _ _ _ _ Hpre Ht).
      eexists. split; [reflexivity|].
      destruct (due t) as [|d0 dr], (priority t) as [|p0 pr]; simpl;
        (split; [reflexivity|]); (split; [reflexivity|]);
        (split;
         [intros [H1 H2]; try discriminate; split; reflexivity
         |intros [H|H]; try congruence; split; reflexivity]).
Qed.

Lemma edit_through_window_witness :
  (exists t' : Task,
     tasks (edit_selected ascii_lower digits_int (Some (row_with (str "Dup")))
                          (str "Once") example_form dup_store) =
       [mkTask (str "Buy milk") PyStr.empty PyStr.empty false] ++ t' ::
       [mkTask (str "Dup") (str "03-04-2025") (str "High") false;
        mkTask (str "Walk") PyStr.empty PyStr.empty true] /\
     text t' = str "Once" /\ due t' = [] /\ priority t' = []) /\
  edit_selected ascii_lower digits_int (Some (row_with (str "42")))
                (str "43") example_form numeric_store = numeric_store.
Proof.
  split.
  - destruct (edit_through_window ascii_lower digits_int dup_store
                (row_with (str "Dup")) (str "Once") example_form)
      as [_ H]; [discriminate|].
    destruct (H eq_refl) as [_ H'].
    destruct (H' [mkTask (str "Buy milk") PyStr.empty PyStr.empty false]
                 [mkTask (str "Dup") (str "03-04-2025") (str "High") false;
                  mkTask (str "Walk") PyStr.empty PyStr.empty true]
                 (mkTask (str "Dup") PyStr.empty PyStr.empty false))
      as (t' & H1 & H2 & _ & H4 & _).
    + reflexivity.
    + repeat constructor. discriminate.
    + reflexivity.
    + exists t'. destruct (H4 (conj eq_refl eq_refl)). auto.
  - destruct (edit_through_window ascii_lower digits_int numeric_store
                (row_with (str "42")) (str "43") example_form)
      as [H _]; [discriminate|].
    apply (H 42%Z). reflexivity.
Defined.

(** X7.  Saving an edit never changes the number of tasks nor any
    completion flag, whatever the window and the texts. *)
Theorem edit_keeps_shape (lower : pystr -> pystr) (self : TaskMaster)
        (w : EditWindow) (new_text : pystr) (form : TaskForm) :
  let self' := save_edit lower w new_text form self in
  List.length (tasks self') = List.length (tasks self) /\
  List.map completed (tasks self') = List.map completed (tasks self).
Proof.
  cbv zeta. unfold save_edit. destruct (PyStr.truthy new_text); [|auto].
  simpl. apply edit_loop_shape.
Qed.

(* ===================================================================== *)
(** * Clearing, and what every command keeps *)
(* ===================================================================== *)

Section Keeping.
Variable lower : pystr -> pystr.

Lemma any_completed_false (l : list Task) :
  any_completed l = false <-> Forall (fun t => completed t = false) l.
Proof.
  unfold any_completed. induction l as [|t l IH]; simpl.
  - split; [constructor | reflexivity].
  - rewrite orb_false_iff, IH. split.
    + intros [H1 H2]. constructor; assumption.
    + intros H. inversion H; auto.
Qed.

Lemma filter_active_none_completed (l : list Task) :
  Forall (fun t => completed t = false)
         (filter (fun task => negb (completed task)) l).
Proof.
  apply Forall_forall. intros t Ht. apply filter_In in Ht.
  destruct Ht as [_ Ht]. apply negb_true_iff. exact Ht.
Qed.

Lemma shown_from_none_completed (search : pystr) (l : list Task) (k : nat) :
  Forall (fun t => completed t = false) l ->
  shown_from lower k (str "completed") search l = [] /\
  rows lower (str "completed") search l = [].
Proof.
  intros H. revert k. induction H as [|t l Ht _ IH]; intros k; simpl; [auto|].
  rewrite skipped_completed, Ht. simpl. apply IH.
Qed.

Lemma tree_in_step_update (self : TaskMaster) :
  tree_in_step lower (update_task_list lower self).
Proof. reflexivity. Qed.

Lemma strip_nonempty_text (s : pystr) : PyStr.strip s <> [] -> s <> [].
Proof. intros H ->. apply H. reflexivity. Qed.

Lemma toggle_loop_no_empty (key : pystr) (l : list Task) :
  Forall (fun t => text t <> []) l ->
  Forall (fun t => text t <> []) (toggle_loop key l).
Proof.
  induction 1 as [|t l Ht Hl IH]; simpl; [constructor|].
  destruct (PyStr.eqb (text t) key); constructor; assumption.
Qed.

Lemma edit_loop_no_empty (old new : pystr) (detailed : bool) (form : TaskForm)
      (l : list Task) :
  new <> [] -> Forall (fun t => text t <> []) l ->
  Forall (fun t => text t <> []) (edit_loop old new detailed form l).
Proof.
  intros Hnew. induction 1 as [|t l Ht Hl IH]; simpl; [constructor|].
  destruct (PyStr.eqb (text t) old).
  - constructor; [destruct detailed; exact Hnew | exact Hl].
  - constructor; assumption.
Qed.

Lemma filter_Forall (P : Task -> Prop) (p : Task -> bool) (l : list Task) :
  Forall P l -> Forall P (filter p l).
Proof.
  intros H. apply Forall_forall. intros t Ht. apply filter_In in Ht.
  rewrite Forall_forall in H. apply H. tauto.
Qed.

Lemma sort_tasks_perm (key : pystr) (self : TaskMaster) :
  Permutation (tasks self) (tasks (sort_tasks lower key self)).
Proof.
  unfold sort_tasks. destruct (PyStr.eqb key (str "priority"));
    apply PyListFacts.sort_perm.
Qed.

(** With no completed task [clear_completed_tasks] shows its notice and
    does nothing else, whatever the answer would be. *)
Lemma clear_completed_nothing (answer : bool) (self : TaskMaster) :
  Forall (fun t => completed t = false) (tasks self) ->
  clear_completed_tasks lower answer self =
  (self, [ShowInfo (str "Info") (str "No completed tasks to clear.")]).
Proof.
  intros H. apply any_completed_false in H.
  unfold clear_completed_tasks. rewrite H. reflexivity.
Qed.

End Keeping.

(** X8.  Neither clearing command changes anything unless the user
    answers yes: with nothing to clear one notice is shown and no
    question asked, with the answer no the state stays as it is.  After a
    yes to [clear_all_tasks] no task and no row are left. *)
Theorem clear_needs_yes (lower : pystr -> pystr) (self : TaskMaster) :
  fst (clear_all_tasks lower false self) = self /\
  fst (clear_completed_tasks lower false self) = self /\
  (tasks self = [] ->
   forall answer, clear_all_tasks lower answer self =
                  (self, [ShowInfo (str "Info") (str "No tasks to clear.")])) /\
  (Forall (fun t => completed t = false) (tasks self) ->
   forall answer, clear_completed_tasks lower answer self =
                  (self, [ShowInfo (str "Info")
                            (str "No completed tasks to clear.")])) /\
  tasks (fst (clear_all_tasks lower true self)) = [] /\
  (tasks self <> [] -> tree (fst (clear_all_tasks lower true self)) = []).
Proof.
  unfold clear_all_tasks, clear_completed_tasks.
  repeat split.
  - destruct (tasks self); reflexivity.
  - destruct (any_completed (tasks self)); reflexivity.
  - intros -> answer. reflexivity.
  - intros H answer. fold (clear_completed_tasks lower answer self).
    apply clear_completed_nothing. exact H.
  - destruct (tasks self) eqn:E; [exact E | reflexivity].
  - intros H. destruct (tasks self); [congruence | reflexivity].
Qed.

Lemma clear_needs_yes_witness :
  clear_all_tasks ascii_lower true empty_store =
    (empty_store, [ShowInfo (str "Info") (str "No tasks to clear.")]) /\
  clear_completed_tasks ascii_lower true priority_store =
    (priority_store,
     [ShowInfo (str "Info") (str "No completed tasks to clear.")]) /\
  tree (fst (clear_all_tasks ascii_lower true dup_store)) = [].
Proof.
  destruct (clear_needs_yes ascii_lower empty_store) as (_ & _ & H1 & _).
  destruct (clear_needs_yes ascii_lower priority_store) as (_ & _ & _ & H2 & _).
  destruct (clear_needs_yes ascii_lower dup_store) as (_ & _ & _ & _ & _ & H3).
  split; [apply H1; reflexivity|]. split.
  - apply H2. repeat constructor.
  - apply H3. discriminate.
Defined.

(** X9.  When some task is completed and the user answers yes,
    [clear_completed_tasks] asks once, removes the completed tasks and
    keeps the others in their order; afterwards no task is completed, the
    filter "completed" shows no task, and the command run again only
    shows its notice. *)
Theorem clear_completed_yes (lower : pystr -> pystr) (self : TaskMaster) :
  any_completed (tasks self) = true ->
  let self' := fst (clear_completed_tasks lower true self) in
  List.length (snd (clear_completed_tasks lower true self)) = 1%nat /\
  tasks self' = filter (fun t => negb (completed t)) (tasks self) /\
  Forall (fun t => completed t = false) (tasks self') /\
  shown lower (str "completed") self' = [] /\
  tree (set_filter lower (str "completed") self') = [] /\
  (forall answer,
     clear_completed_tasks lower answer self' =
     (self', [ShowInfo (str "Info") (str "No completed tasks to clear.")])).
Proof.
  intros Hany. cbv zeta.
  assert (E : clear_completed_tasks lower true self =
              (update_task_list lower
                 (set_tasks (filter (fun t => negb (completed t)) (tasks self))
                            self),
               [AskYesNo (str "Confirm")
                  (str "Are you sure you want to clear all completed tasks?")])).
  { unfold clear_completed_tasks. rewrite Hany. reflexivity. }
  rewrite E. cbn [fst snd].
  pose proof (filter_active_none_completed (tasks self)) as Hnone.
  split; [reflexivity|]. split; [reflexivity|]. split; [exact Hnone|].
  split; [|split].
  - unfold shown. cbn [tasks update_task_list set_tree set_tasks].
    apply (shown_from_none_completed lower). exact Hnone.
  - unfold set_filter, update_task_list.
    cbn [tasks tree filter_state set_tree set_tasks set_filter_state].
    apply (shown_from_none_completed lower _ _ 0). exact Hnone.
  - intros answer. apply clear_completed_nothing. exact Hnone.
Qed.

Lemma clear_completed_yes_witness :
  List.map text (tasks (fst (clear_completed_tasks ascii_lower true dup_store))) =
  [str "Buy milk"; str "Dup"; str "Dup"] /\
  tree (set_filter ascii_lower (str "completed")
          (fst (clear_completed_tasks ascii_lower true dup_store))) = [].
Proof.
  destruct (clear_completed_yes ascii_lower dup_store eq_refl)
    as (_ & H1 & _ & _ & H2 & _).
  split; [rewrite H1; reflexivity | exact H2].
Defined.

(** X10.  No command puts a task with an empty text into the list: when
    no task has an empty text, none has after any action, and so after
    any run of actions. *)
Theorem no_empty_text_kept (lower : pystr -> pystr)
        (py_int : pystr -> option Z) (actions : list Action)
        (self : TaskMaster) :
  Forall (fun t => text t <> []) (tasks self) ->
  Forall (fun t => text t <> []) (tasks (run lower py_int actions self)).
Proof.
  revert self. induction actions as [|a actions IH]; intros self H; [exact H|].
  unfold run. simpl. apply IH. clear IH.
  destruct a as [simple task_text form | selected | selected
                 | selected new_text form | key | state | typed
                 | answer | answer]; simpl.
  - unfold submit. destruct (PyStr.strip task_text) eqn:E; simpl; [exact H|].
    apply Forall_app. split; [exact H|]. constructor; [|constructor].
    simpl. apply strip_nonempty_text. rewrite E. discriminate.
  - destruct selected as [row|]; [|exact H]. simpl.
    destruct (row_value py_int row); simpl; [exact H|].
    apply toggle_loop_no_empty. exact H.
  - destruct selected; [|exact H]. simpl. apply filter_Forall. exact H.
  - unfold edit_selected. destruct (edit_task py_int selected self); [|exact H].
    unfold save_edit. destruct new_text as [|c r]; [exact H|]. simpl.
    apply edit_loop_no_empty; [discriminate | exact H].
  - apply (Permutation_Forall (sort_tasks_perm lower key self)). exact H.
  - exact H.
  - exact H.
  - unfold clear_all_tasks. destruct (tasks self) as [|t l] eqn:E.
    + simpl. rewrite E. constructor.
    + destruct answer; simpl.
      * constructor.
      * rewrite E. exact H.
  - unfold clear_completed_tasks.
    destruct (any_completed (tasks self)); simpl; [|exact H].
    destruct answer; simpl; [apply filter_Forall|]; exact H.
Qed.

Lemma no_empty_text_kept_witness :
  Forall (fun t => text t <> [])
    (tasks (run ascii_lower digits_int
              [Submit true PyStr.empty example_form;
               Submit false (str " x") example_form;
               Edit (Some (row_with (str "Dup"))) PyStr.empty example_form;
               Sort (str "text"); ClearCompleted true]
              dup_store)).
Proof.
  apply (no_empty_text_kept ascii_lower digits_int).
  repeat constructor; discriminate.
Defined.

(** X11.  After a start and any run of actions the tree shows exactly
    the tasks that pass the filter and the search of that moment: no
    command leaves a stale row. *)
Theorem tree_always_in_step (lower : pystr -> pystr)
        (py_int : pystr -> option Z) (file : option pystr)
        (start : TaskMaster) (actions : list Action) :
  init lower file = Returned start ->
  tree_in_step lower (run lower py_int actions start).
Proof.
  intros Hinit.
  assert (Hstart : tree_in_step lower start).
  { unfold init, load_tasks in Hinit. destruct file as [content|].
    - destruct (Json.loads content) as [doc| |]; try discriminate.
      destruct (tasks_of_value doc); [|discriminate].
      injection Hinit as <-. reflexivity.
    - injection Hinit as <-. reflexivity. }
  clear Hinit. revert start Hstart.
  induction actions as [|a actions IH]; intros self H; [exact H|].
  unfold run. simpl. apply IH. clear IH.
  destruct a as [simple task_text form | selected | selected
                 | selected new_text form | key | state | typed
                 | answer | answer]; simpl.
  - unfold submit. destruct (PyStr.truthy (PyStr.strip task_text)); simpl;
      [reflexivity | exact H].
  - destruct selected as [row|]; [|exact H]. simpl.
    destruct (row_value py_int row); reflexivity.
  - destruct selected; [reflexivity | exact H].
  - unfold edit_selected. destruct (edit_task py_int selected self); [|exact H].
    unfold save_edit. destruct (PyStr.truthy new_text); [reflexivity | exact H].
  - unfold sort_tasks. destruct (PyStr.eqb key (str "priority")); reflexivity.
  - reflexivity.
  - reflexivity.
  - unfold clear_all_tasks. destruct (tasks self); [exact H|].
    destruct answer; [reflexivity | exact H].
  - unfold clear_completed_tasks.
    destruct (any_completed (tasks self)); simpl; [|exact H].
    destruct answer; [reflexivity | exact H].
Qed.

Lemma tree_always_in_step_witness :
  tree_in_step ascii_lower
    (run ascii_lower digits_int
       [Submit true (str "Buy milk") example_form; Filter (str "active");
        Toggle (Some (row_with (str "Buy milk"))); Search (str "milk")]
       empty_store).
Proof.
  apply (tree_always_in_step ascii_lower digits_int None). reflexivity.
Defined.

(* ===================================================================== *)
(** * More on sorting *)
(* ===================================================================== *)

Module PyListMore.
Section SortMore.
Context {A K : Type}.
Variable key : A -> K.
Variable lt : K -> K -> bool.

Lemma sorted_app (R : A -> A -> Prop) (l1 l2 : list A) :
  StronglySorted R l1 -> StronglySorted R l2 ->
  (forall x y, In x l1 -> In y l2 -> R x y) ->
  StronglySorted R (l1 ++ l2).
Proof.
  intros H1 H2 H. induction H1 as [|a l1 Hs IH Ha]; simpl; [exact H2|].
  constructor.
  - apply IH. intros x y Hx Hy. apply H; [right; exact Hx | exact Hy].
  - apply Forall_app. split; [exact Ha|].
    apply Forall_forall. intros y Hy. apply H; [left; reflexivity | exact Hy].
Qed.

Lemma sorted_rev (R : A -> A -> Prop) (l : list A) :
  StronglySorted R l -> StronglySorted (fun a b => R b a) (rev l).
Proof.
  induction 1 as [|a l Hs IH Ha]; simpl; [constructor|].
  apply sorted_app; [exact IH | repeat constructor |].
  intros x y Hx [<-|[]]. rewrite Forall_forall in Ha. apply Ha.
  apply in_rev. exact Hx.
Qed.

Hypothesis lt_asym : forall a b, lt a b = true -> lt b a = false.
Hypothesis le_trans :
  forall a b c, lt b a = false -> lt c b = false -> lt c a = false.

(** Descending [sort]: no element is smaller than one after it. *)
Lemma sort_descending (l : list A) :
  StronglySorted (fun a b => PyList.le key lt b a) (PyList.sort key lt true l).
Proof.
  unfold PyList.sort. apply sorted_rev.
  apply PyListFacts.stable_sort_sorted; assumption.
Qed.

(** Both directions keep the elements a test picks in their order, when
    the test holds of no element smaller than one it picks. *)
Lemma sort_filter (p : A -> bool) (reverse : bool) (l : list A) :
  (forall x y, p x = true -> lt (key y) (key x) = true -> p y = false) ->
  filter p (PyList.sort key lt reverse l) = filter p l.
Proof.
  intros Hp. unfold PyList.sort. destruct reverse.
  - rewrite filter_rev, (PyListFacts.stable_sort_filter key lt p _ Hp).
    rewrite filter_rev. apply rev_involutive.
  - apply PyListFacts.stable_sort_filter. exact Hp.
Qed.

End SortMore.

Section Groups.
Context {A K : Type}.
Variable key : A -> K.
Variable lt : K -> K -> bool.
Variable g : A -> bool.

(** The keys have two values, the one of the elements [g] holds of being
    the greater. *)
Hypothesis lt_groups :
  forall x y, lt (key y) (key x) = negb (g y) && g x.






End Groups.

Lemma stable_sort_equal_keys {A K : Type} (key : A -> K) (lt : K -> K -> bool)
      (l : list A) :
  (forall x y, lt (key y) (key x) = false) ->
  PyList.stable_sort key lt l = l.
Proof.
  intros H. induction l as [|x l IH]; simpl; [reflexivity|]. rewrite IH.
  destruct l as [|y l]; simpl; [reflexivity|]. rewrite H. reflexivity.
Qed.

End PyListMore.

Section MoreSorting.
Variable lower : pystr -> pystr.

Lemma ltb_irrefl (a : pystr) : PyStr.ltb a a = false.
Proof. unfold PyStr.ltb. rewrite PyStrFacts.compare_refl. reflexivity. Qed.


Lemma string_key_missing (key : pystr) (t : Task) :
  key <> str "text" -> key <> str "due" -> key <> str "priority" ->
  key <> str "completed" -> string_key key t = [].
Proof.
  intros H1 H2 H3 H4. unfold string_key, task_get_default, task_get.
  apply PyStrFacts.eqb_neq in H1, H2, H3, H4. rewrite H1, H2, H3, H4.
  reflexivity.
Qed.

End MoreSorting.

(** X12.  Sorting by any key, in whichever direction the click gives,
    loses no task and invents none, and keeps tasks of equal sort key in
    the order they had: for the priority column tasks of one ordinal,
    for any other column tasks with the same key string. *)
Theorem sort_keeps_tasks (lower : pystr -> pystr) (self : TaskMaster)
        (key : pystr) :
  let sorted := tasks (sort_tasks lower key self) in
  Permutation (tasks self) sorted /\
  List.length sorted = List.length (tasks self) /\
  (key = str "priority" ->
   forall k : Z,
     filter (fun t => (spec_ordinal (priority t) =? k)%Z) sorted =
     filter (fun t => (spec_ordinal (priority t) =? k)%Z) (tasks self)) /\
  (key <> str "priority" ->
   forall v : pystr,
     filter (fun t => PyStr.eqb (string_key key t) v) sorted =
     filter (fun t => PyStr.eqb (string_key key t) v) (tasks self)).
Proof.
  cbv zeta. pose proof (sort_tasks_perm lower key self) as Hperm.
  split; [exact Hperm|]. split; [symmetry; apply Permutation_length; exact Hperm|].
  split.
  - intros -> k. rewrite tasks_sort_priority.
    apply (PyListMore.sort_filter (priority_key (str "priority")) Z.ltb).
    intros x y Hx Hlt.
    change ((spec_ordinal (priority y) <? spec_ordinal (priority x))%Z = true) in Hlt.
    lia.
  - intros Hkey v. apply PyStrFacts.eqb_neq in Hkey.
    rewrite (tasks_sort_string lower key self Hkey).
    apply (PyListMore.sort_filter (string_key key) PyStr.ltb).
    intros x y Hx Hlt. apply PyStrFacts.eqb_eq in Hx.
    apply PyStrFacts.eqb_neq. intros Hy. rewrite Hx, Hy, ltb_irrefl in Hlt.
    discriminate.
Qed.

Lemma sort_keeps_tasks_witness :
  filter (fun t => PyStr.eqb (string_key (str "text") t) (str "Dup"))
         (tasks (sort_tasks ascii_lower (str "text") dup_store)) =
  [mkTask (str "Dup") PyStr.empty PyStr.empty false;
   mkTask (str "Dup") (str "03-04-2025") (str "High") false].
Proof.
  destruct (sort_keeps_tasks ascii_lower dup_store (str "text"))
    as (_ & _ & _ & H).
  rewrite H; [reflexivity | discriminate].
Defined.

(** X13.  When the click gives the descending direction (the same column
    clicked again), the tasks come out with no task before one of a
    greater key: by ordinal for the priority column, by the comparison of
    the key strings for any other column. *)
Theorem sort_descending_order (lower : pystr -> pystr) (self : TaskMaster)
        (key : pystr) :
  sort_reverse (sort_tasks lower key self) = true ->
  let sorted := tasks (sort_tasks lower key self) in
  (key = str "priority" ->
   StronglySorted
     (fun a b => (spec_ordinal (priority b) <= spec_ordinal (priority a))%Z)
     sorted) /\
  (key <> str "priority" ->
   StronglySorted
     (fun a b => PyStr.leb (string_key key b) (string_key key a) = true)
     sorted).
Proof.
  intros Hdir. rewrite sort_reverse_sort_tasks in Hdir. cbv zeta. split.
  - intros ->. rewrite tasks_sort_priority, Hdir.
    eapply PyListFacts.sorted_weaken;
      [|apply (PyListMore.sort_descending (priority_key (str "priority")) Z.ltb);
        intros; lia].
    intros a b H.
    change ((spec_ordinal (priority a) <? spec_ordinal (priority b))%Z = false) in H.
    lia.
  - intros Hkey. apply PyStrFacts.eqb_neq in Hkey.
    rewrite (tasks_sort_string lower key self Hkey), Hdir.
    eapply PyListFacts.sorted_weaken;
      [|apply (PyListMore.sort_descending (string_key key) PyStr.ltb);
        [apply PyStrFacts.ltb_asym | apply PyStrFacts.leb_trans]].
    intros a b H. unfold PyList.le in H. unfold PyStr.leb. rewrite H.
    reflexivity.
Qed.

Lemma sort_descending_order_witness :
  List.map due
    (tasks (sort_tasks ascii_lower (str "due")
              (sort_tasks ascii_lower (str "due") due_store))) =
  [str "02-01-2023"; str "01-05-2024"] /\
  StronglySorted
    (fun a b => PyStr.leb (string_key (str "due") b) (string_key (str "due") a) = true)
    (tasks (sort_tasks ascii_lower (str "due")
              (sort_tasks ascii_lower (str "due") due_store))).
Proof.
  split; [reflexivity|].
  apply (sort_descending_order ascii_lower
           (sort_tasks ascii_lower (str "due") due_store) (str "due"));
    [reflexivity | discriminate].
Defined.

(** X14.  A sort key that is no field of a task (the default of
    [x.get(key, "")] for every task) leaves the tasks in the order they
    had, in either direction. *)
Theorem sort_unknown_key (lower : pystr -> pystr) (self : TaskMaster)
        (key : pystr) :
  key <> str "text" -> key <> str "due" -> key <> str "priority" ->
  key <> str "completed" ->
  tasks (sort_tasks lower key self) = tasks self.
Proof.
  intros H1 H2 H3 H4.
  rewrite (tasks_sort_string lower key self (proj2 (PyStrFacts.eqb_neq _ _) H3)).
  assert (Hsame : forall l, PyList.stable_sort (string_key key) PyStr.ltb l = l).
  { intros l. apply PyListMore.stable_sort_equal_keys. intros x y.
    rewrite !string_key_missing by assumption. reflexivity. }
  unfold PyList.sort. destruct (direction key self).
  - rewrite Hsame. apply rev_involutive.
  - apply Hsame.
Qed.

Lemma sort_unknown_key_witness :
  tasks (sort_tasks ascii_lower (str "Task") dup_store) = tasks dup_store.
Proof.
  apply (sort_unknown_key ascii_lower dup_store (str "Task")); discriminate.
Defined.


(* ===================================================================== *)
(** * More on the filter and the search *)
(* ===================================================================== *)

Section MoreFiltering.
Variable lower : pystr -> pystr.

Lemma startswith_iff (s p : pystr) :
  PyStr.startswith s p = true <-> exists post, s = p ++ post.
Proof.
  revert s. induction p as [|x p IH]; intros s; simpl.
  - split; [intros _; exists s; reflexivity | destruct s; reflexivity].
  - destruct s as [|y s]; simpl.
    + split; [discriminate | intros [post H]; discriminate].
    + rewrite andb_true_iff, N.eqb_eq, IH. split.
      * intros [-> [post ->]]. exists post. reflexivity.
      * intros [post [= -> ->]]. split; [reflexivity | exists post; reflexivity].
Qed.

(** [needle in hay]: the needle is a run of code points of the hay. *)
Lemma contains_iff (hay needle : pystr) :
  PyStr.contains hay needle = true <->
  exists pre post, hay = pre ++ needle ++ post.
Proof.
  induction hay as [|c hay IH].
  - cbn [PyStr.contains]. rewrite orb_false_r, startswith_iff. split.
    + intros [post H]. exists [], post. exact H.
    + intros (pre & post & H). destruct pre; [exists post; exact H|discriminate].
  - cbn [PyStr.contains]. rewrite orb_true_iff, startswith_iff, IH. split.
    + intros [[post H] | (pre & post & H)].
      * exists [], post. exact H.
      * exists (c :: pre), post. rewrite H. reflexivity.
    + intros (pre & post & H). destruct pre as [|d pre].
      * left. exists post. exact H.
      * injection H as _ H. right. exists pre, post. exact H.
Qed.

Lemma rows_no_search (state : pystr) (l : list Task) :
  rows lower state [] l =
  List.map row_of
    (filter (fun t =>
               negb ((PyStr.eqb state (str "active") && completed t) ||
                     (PyStr.eqb state (str "completed") && negb (completed t))))
            l).
Proof.
  induction l as [|t l IH]; simpl; [reflexivity|].
  unfold skipped at 1. cbn [PyStr.truthy andb]. rewrite orb_false_r.
  destruct ((PyStr.eqb state (str "active") && completed t) ||
            (PyStr.eqb state (str "completed") && negb (completed t)));
    simpl; rewrite IH; reflexivity.
Qed.

Lemma filter_true (l : list Task) : filter (fun _ => true) l = l.
Proof. induction l as [|t l IH]; simpl; [|rewrite IH]; reflexivity. Qed.

End MoreFiltering.

(** X16.  With a search box that holds nothing but white space (after
    lower-casing), the tree shows the rows of all tasks in their order
    under any filter other than "active" and "completed", the rows of the
    tasks not completed under "active", and the rows of the completed
    tasks under "completed". *)
Theorem blank_search_shows_all (lower : pystr -> pystr) (self : TaskMaster) :
  whitespace_only (lower (search_var self)) ->
  (filter_state self <> str "active" -> filter_state self <> str "completed" ->
   tree (update_task_list lower self) = List.map row_of (tasks self)) /\
  tree (set_filter lower (str "active") self) =
    List.map row_of (filter (fun t => negb (completed t)) (tasks self)) /\
  tree (set_filter lower (str "completed") self) =
    List.map row_of (filter completed (tasks self)).
Proof.
  intros Hblank.
  assert (Hs : search_text lower self = []).
  { unfold search_text. apply PyStrFacts.strip_nil_iff, forallb_forall.
    unfold whitespace_only in Hblank. rewrite Forall_forall in Hblank.
    exact Hblank. }
  unfold set_filter, update_task_list.
  cbn [tree set_tree set_filter_state filter_state tasks].
  replace (search_text lower (set_filter_state (str "active") self))
    with (@nil N) by (symmetry; exact Hs).
  replace (search_text lower (set_filter_state (str "completed") self))
    with (@nil N) by (symmetry; exact Hs).
  rewrite Hs, !rows_no_search. repeat split.
  - intros H1 H2. apply PyStrFacts.eqb_neq in H1, H2. rewrite H1, H2.
    cbn [andb orb negb]. rewrite filter_true. reflexivity.
  - f_equal. apply filter_ext. intros t. destruct (completed t); reflexivity.
  - f_equal. apply filter_ext. intros t. destruct (completed t); reflexivity.
Qed.

Lemma blank_search_shows_all_witness :
  tree (set_filter ascii_lower (str "active") dup_store) =
  List.map row_of
    [mkTask (str "Buy milk") PyStr.empty PyStr.empty false;
     mkTask (str "Dup") PyStr.empty PyStr.empty false;
     mkTask (str "Dup") (str "03-04-2025") (str "High") false].
Proof.
  destruct (blank_search_shows_all ascii_lower dup_store) as (_ & H & _).
  - constructor.
  - rewrite H. reflexivity.
Defined.

(** X17.  The search: under the filter "all" a task is shown exactly when
    the search text, lower-cased and stripped, is empty or is a run of
    code points of the lower-cased text of the task. *)
Theorem search_is_substring (lower : pystr -> pystr) (self : TaskMaster)
        (i : nat) :
  In i (shown lower (str "all") self) <->
  exists t : Task,
    nth_error (tasks self) i = Some t /\
    (search_text lower self = [] \/
     exists pre post : pystr,
       lower (text t) = pre ++ search_text lower self ++ post).
Proof.
  unfold shown. rewrite in_shown_from, Nat.sub_0_r. split.
  - intros (_ & t & Hn & Hs). exists t. split; [exact Hn|].
    rewrite skipped_all in Hs.
    destruct (search_text lower self) as [|c r] eqn:E; [left; reflexivity|].
    right. simpl in Hs. apply negb_false_iff in Hs.
    apply contains_iff. exact Hs.
  - intros (t & Hn & Hs). split; [lia|]. exists t. split; [exact Hn|].
    rewrite skipped_all. destruct Hs as [-> | Hs]; [reflexivity|].
    apply contains_iff in Hs. rewrite Hs. apply andb_false_r.
Qed.

Lemma search_is_substring_witness :
  In 2%nat (shown ascii_lower (str "all") busy_store).
Proof.
  apply (search_is_substring ascii_lower busy_store 2).
  eexists. split; [reflexivity|].
  right. exists [], (str " stamps"). reflexivity.
Defined.

(* ===================================================================== *)
(** * More on the file *)
(* ===================================================================== *)

Module FileFacts.
Import Json.

Lemma hex_digit_printable (d : N) : d < 16 -> printable (hex_digit d).
Proof.
  intros Hd. unfold printable, hex_digit.
  destruct (d <? 10) eqn:E; arith_hyps; lia.
Qed.

Lemma u_escape_printable (n : N) : Forall printable (u_escape n).
Proof.
  unfold u_escape.
  repeat constructor; try (unfold printable; lia);
    apply hex_digit_printable; apply N.mod_lt; discriminate.
Qed.

Lemma escape_char_printable (c : N) : Forall printable (escape_char c).
Proof.
  unfold escape_char.
  repeat match goal with
  | |- Forall _ (if ?b then _ else _) => destruct b eqn:?
  end; arith_hyps;
    try (repeat constructor; unfold printable; lia).
  - apply u_escape_printable.
  - cbv zeta. apply Forall_app. split; apply u_escape_printable.
Qed.

Lemma escape_printable (s : pystr) : Forall printable (escape s).
Proof.
  induction s as [|c s IH]; simpl; [constructor|].
  apply Forall_app. split; [apply escape_char_printable | exact IH].
Qed.

Lemma encode_printable (s : pystr) :
  Forall printable (encode_basestring_ascii s).
Proof.
  unfold encode_basestring_ascii. constructor; [unfold printable; lia|].
  apply Forall_app. split; [apply escape_printable|].
  repeat constructor; unfold printable; lia.
Qed.

Lemma join_printable (sep : pystr) (l : list pystr) :
  Forall printable sep -> Forall (Forall printable) l ->
  Forall printable (join sep l).
Proof.
  intros Hsep. induction 1 as [|x l Hx Hl IH]; [constructor|].
  destruct l as [|y l]; [exact Hx|].
  change (join sep (x :: y :: l)) with (x ++ sep ++ join sep (y :: l)).
  repeat (apply Forall_app; split); assumption.
Qed.

Lemma literal_printable (s : pystr) :
  forallb (fun c => (32 <=? c) && (c <=? 126)) s = true -> Forall printable s.
Proof.
  intros H. apply Forall_forall. intros c Hc.
  rewrite forallb_forall in H. specialize (H c Hc).
  unfold printable. arith_hyps. lia.
Qed.

Lemma dumps_task_printable (t : Task) : Forall printable (dumps_task t).
Proof.
  assert (Hpair : forall k v : pystr,
            Forall printable v ->
            Forall printable (encode_basestring_ascii k ++ str ": " ++ v)).
  { intros k v Hv. apply Forall_app. split; [apply encode_printable|].
    apply Forall_app. split; [apply literal_printable; reflexivity | exact Hv]. }
  unfold dumps_task.
  apply Forall_app. split; [apply literal_printable; reflexivity|].
  apply Forall_app. split; [|apply literal_printable; reflexivity].
  apply join_printable; [apply literal_printable; reflexivity|].
  apply Forall_cons; [apply Hpair, encode_printable|].
  apply Forall_cons; [apply Hpair, encode_printable|].
  apply Forall_cons; [apply Hpair, encode_printable|].
  apply Forall_cons; [|apply Forall_nil].
  apply Hpair. destruct (completed t); apply literal_printable; reflexivity.
Qed.

Lemma skip_ws_blank (s : pystr) :
  forallb is_ws s = true -> skip_ws s = [].
Proof.
  induction s as [|c s IH]; simpl; [reflexivity|].
  intros H. apply andb_true_iff in H. destruct H as [Hc Hs].
  rewrite Hc. apply IH. exact Hs.
Qed.

Lemma loads_blank (s : pystr) :
  forallb is_ws s = true -> loads s = DecodeError.
Proof.
  intros H. unfold loads. rewrite (skip_ws_blank s H).
  destruct s as [|c s]; [reflexivity|].
  simpl in H. apply andb_true_iff in H. destruct H as [Hc _].
  assert (Hbom : PyStr.startswith (c :: s) [65279] = false).
  { cbn [PyStr.startswith]. destruct (65279 =? c) eqn:E; [|reflexivity].
    apply N.eqb_eq in E. subst c. discriminate. }
  rewrite Hbom. reflexivity.
Qed.

End FileFacts.

(** X18.  The text written to the file holds only the characters from
    space to tilde, whatever the tasks hold: every other code point is
    written as an escape, so writing the file cannot fail on the
    encoding of a character. *)
Theorem saved_file_is_ascii (self : TaskMaster) :
  Forall (fun c => 32 <= c /\ c <= 126) (save_tasks self).
Proof.
  unfold save_tasks, dumps_tasks.
  apply Forall_app. split; [apply FileFacts.literal_printable; reflexivity|].
  apply Forall_app. split; [|apply FileFacts.literal_printable; reflexivity].
  apply FileFacts.join_printable;
    [apply FileFacts.literal_printable; reflexivity|].
  apply Forall_forall. intros x Hx. apply in_map_iff in Hx.
  destruct Hx as (t & <- & _). apply FileFacts.dumps_task_printable.
Qed.

(** X19.  A file that is empty or holds white space only makes the start
    fail with the decoding error, like a file that is no JSON. *)
Theorem blank_file_aborts (lower : pystr -> pystr) (content : pystr) :
  forallb Json.is_ws content = true ->
  init lower (Some content) = Raised JSONDecodeError.
Proof.
  intros H. unfold init, load_tasks.
  rewrite (FileFacts.loads_blank content H). reflexivity.
Qed.

Lemma blank_file_aborts_witness :
  init ascii_lower (Some PyStr.empty) = Raised JSONDecodeError /\
  init ascii_lower (Some [32; 10]) = Raised JSONDecodeError.
Proof.
  split; apply (blank_file_aborts ascii_lower); reflexivity.
Defined.

(* ===================================================================== *)
(** * The day box and the places of the windows *)
(* ===================================================================== *)

Section DayBox.

Lemma format_02d_small_check :
  forallb (fun k => PyStr.eqb (format_02d (N.of_nat k))
                              [48 + N.of_nat k / 10; 48 + N.of_nat k mod 10])
          (seq 0 100) = true.
Proof. vm_compute. reflexivity. Qed.

(** Below a hundred [f"{i:02d}"] is two digits. *)
Lemma format_02d_small (i : N) :
  i < 100 -> format_02d i = [48 + i / 10; 48 + i mod 10].
Proof.
  intros Hi. pose proof format_02d_small_check as H.
  rewrite forallb_forall in H. specialize (H (N.to_nat i)).
  rewrite N2Nat.id in H. apply PyStrFacts.eqb_eq, H.
  apply in_seq. lia.
Qed.

Lemma max_days_range (month year : Z) :
  (28 <= max_days month year <= 31)%Z.
Proof.
  unfold max_days.
  destruct (existsb (Z.eqb month) [4; 6; 9; 11]%Z); [lia|].
  destruct (month =? 2)%Z; [|lia].
  destruct ((year mod 4 =? 0) &&
            (negb (year mod 100 =? 0) || (year mod 400 =? 0)))%Z; lia.
Qed.

Lemma day_range_length (md : Z) :
  List.length (day_range md) = Z.to_nat md.
Proof. unfold day_range. rewrite length_map, length_seq. reflexivity. Qed.

Lemma day_range_nth (md : Z) (i : nat) :
  (i < Z.to_nat md)%nat ->
  nth_error (day_range md) i = Some (format_02d (N.of_nat (S i))).
Proof.
  intros Hi. unfold day_range.
  rewrite nth_error_map, nth_error_seq.
  destruct (Nat.ltb_spec i (Z.to_nat md)) as [_|H]; [reflexivity | lia].
Qed.

Lemma day_range_last (md : Z) :
  (0 < md)%Z -> In (format_02d (Z.to_N md)) (day_range md).
Proof.
  intros Hmd. apply (nth_error_In _ (Z.to_nat md - 1)).
  rewrite day_range_nth by lia. f_equal. f_equal. lia.
Qed.

End DayBox.

(** X20.  [update_days]: when the month or the year is no number nothing
    changes; otherwise the month and year boxes stay, the day box offers
    exactly the days "01", "02", ... up to the last day of the month,
    which are 28 to 31 values; a day that reads as a number greater than
    the last day is replaced by the last value offered, and any other
    day stays as typed. *)
Theorem update_days_offers (py_int : pystr -> option Z) (b : DateBoxes) :
  (py_int (month_box b) = None \/ py_int (year_box b) = None ->
   update_days py_int b = b) /\
  (forall m y : Z,
     py_int (month_box b) = Some m -> py_int (year_box b) = Some y ->
     let b' := update_days py_int b in
     let md := max_days m y in
     month_box b' = month_box b /\ year_box b' = year_box b /\
     (28 <= List.length (day_values b') <= 31)%nat /\
     List.length (day_values b') = Z.to_nat md /\
     (forall i : nat,
        (i < Z.to_nat md)%nat ->
        nth_error (day_values b') i =
        Some [48 + N.of_nat (S i) / 10; 48 + N.of_nat (S i) mod 10]) /\
     (forall d : Z,
        py_int (day_box b) = Some d -> (d > md)%Z ->
        day_box b' = format_02d (Z.to_N md) /\
        In (day_box b') (day_values b')) /\
     (py_int (day_box b) = None \/
      (exists d : Z, py_int (day_box b) = Some d /\ (d <= md)%Z) ->
      day_box b' = day_box b)).
Proof.
  split.
  - intros [H|H]; unfold update_days; rewrite H; [reflexivity|].
    destruct (py_int (month_box b)); reflexivity.
  - intros m y Hm Hy. cbv zeta. unfold update_days. rewrite Hm, Hy.
    pose proof (max_days_range m y) as Hr.
    cbn [month_box day_box year_box day_values].
    assert (Hvalues :
      day_values
        (match py_int (day_box b) with
         | Some d =>
             if (d >? max_days m y)%Z
             then mkDateBoxes (month_box b) (format_02d (Z.to_N (max_days m y)))
                              (year_box b) (day_range (max_days m y))
             else mkDateBoxes (month_box b) (day_box b) (year_box b)
                              (day_range (max_days m y))
         | None => mkDateBoxes (month_box b) (day_box b) (year_box b)
                               (day_range (max_days m y))
         end) = day_range (max_days m y)).
    { destruct (py_int (day_box b)) as [d|]; [|reflexivity].
      destruct (d >? max_days m y)%Z; reflexivity. }
    rewrite Hvalues, day_range_length.
    split; [|split; [|split; [|split; [|split; [|split]]]]].
    + destruct (py_int (day_box b)) as [d|]; [|reflexivity].
      destruct (d >? max_days m y)%Z; reflexivity.
    + destruct (py_int (day_box b)) as [d|]; [|reflexivity].
      destruct (d >? max_days m y)%Z; reflexivity.
    + lia.
    + reflexivity.
    + intros i Hi. rewrite day_range_nth by exact Hi.
      rewrite format_02d_small by lia. reflexivity.
    + intros d Hd Hgt. rewrite Hd.
      rewrite (proj2 (Z.gtb_lt _ _)) by lia. cbn [day_box].
      split; [reflexivity | apply day_range_last; lia].
    + intros [Hnone | (d & Hd & Hle)].
      * rewrite Hnone. reflexivity.
      * rewrite Hd. destruct (d >? max_days m y)%Z eqn:E; [|reflexivity].
        apply Z.gtb_lt in E. lia.
Qed.

Lemma update_days_offers_witness :
  let b := mkDateBoxes (str "02") (str "31") (str "2023") [] in
  day_box (update_days digits_int b) = str "28" /\
  In (day_box (update_days digits_int b))
     (day_values (update_days digits_int b)) /\
  update_days digits_int (mkDateBoxes (str "Feb") (str "31") (str "2023") []) =
    mkDateBoxes (str "Feb") (str "31") (str "2023") [].
Proof.
  cbv zeta.
  destruct (update_days_offers digits_int
              (mkDateBoxes (str "02") (str "31") (str "2023") []))
    as [_ H].
  destruct (H 2%Z 2023%Z eq_refl eq_refl) as (_ & _ & _ & _ & _ & Hcap & _).
  destruct (Hcap 31%Z eq_refl eq_refl) as [Hday Hin].
  split; [rewrite Hday; reflexivity|]. split; [exact Hin|].
  apply (update_days_offers digits_int). left. reflexivity.
Defined.

(** X21.  For the months 1 to 12 the last day [update_days] works out is
    the number of days of that month in the Gregorian calendar: the days
    from the first of the month to the first of the next month. *)
Theorem max_days_is_month_length (month year : Z) :
  (1 <= month <= 12)%Z ->
  max_days month year = (next_month_start year month - day_number year month 1)%Z.
Proof.
  intros Hm.
  assert (Hcases : (month = 1 \/ month = 2 \/ month = 3 \/ month = 4 \/
                    month = 5 \/ month = 6 \/ month = 7 \/ month = 8 \/
                    month = 9 \/ month = 10 \/ month = 11 \/ month = 12)%Z)
    by lia.
  unfold max_days, next_month_start, day_number.
  repeat destruct Hcases as [-> | Hcases]; try subst month;
    cbn [existsb Z.eqb Z.leb Z.compare Pos.eqb Pos.compare Pos.compare_cont
         orb Z.add Z.sub Z.opp Pos.add Pos.succ Z.pos_sub Z.succ_double
         Z.pred_double Z.double Pos.pred_double Z.mul Pos.mul];
    cbv zeta;
    try (destruct ((year mod 4 =? 0) &&
                   (negb (year mod 100 =? 0) || (year mod 400 =? 0)))%Z eqn:E;
         [apply andb_true_iff in E; destruct E as [E1 E2];
          apply Z.eqb_eq in E1; apply orb_true_iff in E2;
          destruct E2 as [E2|E2];
          [apply negb_true_iff, Z.eqb_neq in E2 | apply Z.eqb_eq in E2]
         |apply andb_false_iff in E; destruct E as [E|E];
          [apply Z.eqb_neq in E
          |apply orb_false_iff in E; destruct E as [E1 E2];
           apply negb_false_iff, Z.eqb_eq in E1; apply Z.eqb_neq in E2]]);
    Z.to_euclidean_division_equations; lia.
Qed.

Lemma max_days_is_month_length_witness :
  max_days 2 2024 = 29%Z /\ max_days 2 2100 = 28%Z /\ max_days 2 2000 = 29%Z.
Proof.
  rewrite !max_days_is_month_length by lia. repeat split.
Defined.

(** X22.  The windows are centred to the pixel: the main window's margin
    to the left of the screen and its margin to the right differ by one
    at most, and so do the margins above and below; a child window's
    margins inside the main window differ by one at most too, also when
    the child is the larger. *)
Theorem windows_centred (width height sw sh root_x root_y root_width
                          root_height win_width win_height : Z) :
  let (x, y) := center_window width height sw sh in
  let (cx, cy) := center_child root_x root_y root_width root_height
                               win_width win_height in
  (-1 <= (sw - (x + width)) - x <= 1)%Z /\
  (-1 <= (sh - (y + height)) - y <= 1)%Z /\
  (0 <= (root_x + root_width - (cx + win_width)) - (cx - root_x) <= 1)%Z /\
  (0 <= (root_y + root_height - (cy + win_height)) - (cy - root_y) <= 1)%Z.
Proof.
  unfold center_window, center_child.
  repeat split; Z.to_euclidean_division_equations; lia.
Qed.
